(** * Game Plan driver: port multiplexer, coin line, audio latch and reset

    A shallow embedding of the line and port handlers of
    [src/mame/gameplan/gameplan.cpp] (class [gameplan_state]).

    The handlers are glue between the driver's own fields and collaborator
    devices (audio CPU, RIOT 6532, scheduler, coin counters, input ports).
    Each handler is embedded as a computation over the driver fields that
    also records, in program order, the calls it makes on collaborators. *)

From Stdlib Require Import ZArith List Lia Bool.
From stdpp Require Import base gmap strings list functions.

Local Open Scope Z_scope.

(** ** Machine integers *)

(** Conversion of an [int] to [uint8_t] (argument passing, return values). *)
Definition uint8 (x : Z) : Z := Z.land x 0xff.

(** C++ truth value of an [int] used as a condition. *)
Definition truthy (x : Z) : bool := negb (x =? 0).

(** A line level as the 6522/6532 callbacks deliver it. *)
Definition is_level (x : Z) : Prop := x = 0 ∨ x = 1.

(** ** Emulated time, as far as the driver writes it *)

Module attotime.
(** The two ways in which the driver builds a time value:
    [attotime::zero] and [attotime::from_usec(us)]. *)
Inductive t : Type :=
| zero
| from_usec (us : Z).

Definition as_usec (x : t) : Z :=
  match x with
  | zero => 0
  | from_usec us => us
  end.

#[global] Instance eq_dec : EqDecision t.
Proof. solve_decision. Defined.
End attotime.

(** ** Calls on collaborators *)

Inductive call : Type :=
| audiocpu_set_input_line (linenum state : Z)
| riot_reset
| riot_porta_in_set (data mask : Z)
| scheduler_boost_interleave (timeslice_time boost_duration : attotime.t)
| bookkeeping_coin_counter_w (num on : Z)
| save_item (name : string).

Global Instance call_eq_dec : EqDecision call.
Proof. solve_decision. Defined.

Definition is_boost (c : call) : bool :=
  match c with
  | scheduler_boost_interleave _ _ => true
  | _ => false
  end.

Definition is_riot_call (c : call) : bool :=
  match c with
  | riot_reset | riot_porta_in_set _ _ => true
  | _ => false
  end.

(** ** Driver fields *)

Record gameplan_state : Type := mk_gameplan_state {
  m_current_port : Z;
  m_video_x : Z;
  m_video_y : Z;
  m_video_command : Z;
  m_video_data : Z;
  m_video_previous : Z
}.

Definition with_current_port (p : Z) (s : gameplan_state) : gameplan_state :=
  {| m_current_port := p;
     m_video_x := m_video_x s;
     m_video_y := m_video_y s;
     m_video_command := m_video_command s;
     m_video_data := m_video_data s;
     m_video_previous := m_video_previous s |}.

(** ** Handler monad: driver fields threaded, collaborator calls logged *)

Definition M (A : Type) : Type := gameplan_state → A * gameplan_state * list call.

Global Instance M_ret : MRet M := λ A x s, (x, s, []).

Global Instance M_bind : MBind M := λ A B f m s,
  let '(a, s1, t1) := m s in
  let '(b, s2, t2) := f a s1 in
  (b, s2, t1 ++ t2).

Definition get : M gameplan_state := λ s, (s, s, []).
Definition modify (f : gameplan_state → gameplan_state) : M unit := λ s, (tt, f s, []).
Definition emit (c : call) : M unit := λ s, (tt, s, [c]).
Definition when (b : bool) (m : M unit) : M unit := if b then m else mret tt.

Definition value {A} (r : A * gameplan_state * list call) : A := r.1.1.
Definition state_of {A} (r : A * gameplan_state * list call) : gameplan_state := r.1.2.
Definition calls {A} (r : A * gameplan_state * list call) : list call := r.2.

(** Indexing a C array by an integer: defined inside the array only. *)
Definition array_at {A} (a : list A) (i : Z) : option A :=
  if decide (0 ≤ i) then a !! Z.to_nat i else None.

(** Evaluate the bit operations on literals that occur in the goal. *)
Ltac eval_land :=
  repeat match goal with
         | |- context [Z.land ?a ?b] =>
             let v := eval vm_compute in (Z.land a b) in
             progress change (Z.land a b) with v
         end.

(** ** Collaborator devices *)

Module riot6532.
(** Modelled from the spec: the RIOT device class is not part of the
    driver file; of its state the driver's contract names only the 8-bit
    port-A input latch (the Command Latch Byte). *)
Record t : Type := mk { port_a_in : Z }.

(** Modelled from the spec: [porta_in_set(data, mask)], missing from the
    driver file, is the masked update of the latch byte: the bits under
    [mask] are taken from [data], the other bits keep their value, and
    the latch holds 8 bits. *)
Definition porta_in_set (data mask : Z) (r : t) : t :=
  {| port_a_in :=
       uint8 (Z.lor (Z.land (port_a_in r) (Z.lnot mask)) (Z.land data mask)) |}.
End riot6532.

Module bookkeeping.
(** Modelled from the spec: the coin-counter collaborator is not part of
    the driver file; per channel it holds a count and the level it was
    last given. *)
Record t : Type := mk { coin_count : Z → Z; lastcoin : Z → Z }.

(** Modelled from the spec: [coin_counter_w(num, on)] (the spec's
    [increment(channel, active)]), missing from the driver file, expects
    active-high pulses: the count of the channel goes up by one when
    [on] becomes active after having been inactive. *)
Definition coin_counter_w (num on : Z) (b : t) : t :=
  {| coin_count :=
       if truthy on && (lastcoin b num =? 0)
       then <[num := coin_count b num + 1]> (coin_count b)
       else coin_count b;
     lastcoin := <[num := on]> (lastcoin b) |}.
End bookkeeping.

(** ** A concrete machine

    Values for the parameters of the development, used by the instances
    at the end of the file. The theorems hold for every choice. *)

Module sample.
Definition CLEAR_LINE : Z := 0.
Definition ASSERT_LINE : Z := 1.
Definition INPUT_LINE_RESET : Z := 65.

Definition ioports : gmap string Z :=
  <["IN0" := 0xe0]> (<["IN1" := 0xff]> (<["IN2" := 0xa5]>
    (<["IN3" := 0xff]> (<["DSW0" := 0x3c]> {["DSW1" := 0x01]})))).

Definition fields : gameplan_state :=
  {| m_current_port := 5;
     m_video_x := 17;
     m_video_y := 3;
     m_video_command := 1;
     m_video_data := 0x80;
     m_video_previous := 0 |}.

Definition riot_power_on : riot6532.t := {| riot6532.port_a_in := 0 |}.

Definition riot_trigger_high : riot6532.t := {| riot6532.port_a_in := 0x80 |}.

Definition counters : bookkeeping.t :=
  {| bookkeeping.coin_count := λ _, 0; bookkeeping.lastcoin := λ _, 0 |}.
End sample.

(** ** The driver's tables

    The address maps, input ports, ROM sets and game entries of the driver
    file, entry for entry and in the order of the source. *)

(** *** Address maps *)

Module address_map.
(** What an entry maps its range to: [ram()], [rom()], a device map
    [m(device, FUNC(map))], and the read and write handlers [rw], [r]
    and [w] of a device. *)
Inductive handler : Type :=
| ram
| rom
| m (device func : string)
| rw (device rfunc wfunc : string)
| r (device func : string)
| w (device func : string).

#[global] Instance handler_eq_dec : EqDecision handler.
Proof. solve_decision. Defined.

(** [map(addrstart, addrend).mirror(addrmirror).handler]; an entry
    without [mirror] has mirror 0. *)
Record entry : Type := map {
  addrstart : Z;
  addrend : Z;
  mirror : Z;
  target : handler
}.

#[global] Instance entry_eq_dec : EqDecision entry.
Proof. solve_decision. Defined.

(** An entry answers an address when the address, its mirror bits
    cleared, lies between the start and the end of the entry: the mirror
    bits are the don't-care bits of the decode tables at the head of the
    driver file. *)
Definition answers (a : Z) (e : entry) : bool :=
  let x := Z.land a (Z.lnot (mirror e)) in
  (addrstart e <=? x) && (x <=? addrend e).

Definition decode (entries : list entry) (a : Z) : list entry :=
  filter (answers a) entries.

(** Offset of an address inside the entry that answers it. *)
Definition offset (a : Z) (e : entry) : Z :=
  Z.land a (Z.lnot (mirror e)) - addrstart e.
End address_map.

Definition gameplan_main_map : list address_map.entry :=
  [ address_map.map 0x0000 0x03ff 0x1c00 address_map.ram;
    address_map.map 0x2000 0x200f 0x07f0
      (address_map.m "m_via_0" "via6522_device::map");
    address_map.map 0x2800 0x280f 0x07f0
      (address_map.m "m_via_1" "via6522_device::map");
    address_map.map 0x3000 0x300f 0x07f0
      (address_map.m "m_via_2" "via6522_device::map");
    address_map.map 0x8000 0xffff 0 address_map.rom ].

Definition gameplan_audio_map : list address_map.entry :=
  [ address_map.map 0x0000 0x007f 0x1780 address_map.ram;
    address_map.map 0x0800 0x081f 0x17e0
      (address_map.rw "m_riot" "riot6532_device::read" "riot6532_device::write");
    address_map.map 0xa000 0xa000 0x1ffc
      (address_map.w "aysnd" "ay8910_device::address_w");
    address_map.map 0xa001 0xa001 0x1ffc
      (address_map.r "aysnd" "ay8910_device::data_r");
    address_map.map 0xa002 0xa002 0x1ffc
      (address_map.w "aysnd" "ay8910_device::data_w");
    address_map.map 0xe000 0xe7ff 0x1800 address_map.rom ].

Definition leprechn_audio_map : list address_map.entry :=
  [ address_map.map 0x0000 0x007f 0x1780 address_map.ram;
    address_map.map 0x0800 0x081f 0x17e0
      (address_map.rw "m_riot" "riot6532_device::read" "riot6532_device::write");
    address_map.map 0xa000 0xa000 0x1ffc
      (address_map.w "aysnd" "ay8910_device::address_w");
    address_map.map 0xa001 0xa001 0x1ffc
      (address_map.r "aysnd" "ay8910_device::data_r");
    address_map.map 0xa002 0xa002 0x1ffc
      (address_map.w "aysnd" "ay8910_device::data_w");
    address_map.map 0xe000 0xefff 0x1000 address_map.rom ].

(** [P] on every address of the 2^bits addresses whose higher bits are
    those of [base]. *)
Fixpoint all_below (bits : nat) (P : Z → bool) (base : Z) : bool :=
  match bits with
  | O => P base
  | S n => all_below n P (2 * base) && all_below n P (2 * base + 1)
  end.

(** [P] on the whole 64K address space of either CPU. *)
Definition all_addresses (P : Z → bool) : bool := all_below 16 P 0.

(** *** Input ports *)

Local Set Warnings "-register-all".

Inductive ioport_type : Type :=

| IPT_BUTTON1
| IPT_BUTTON2
| IPT_BUTTON3
| IPT_BUTTON4
| IPT_COIN1
| IPT_COIN2
| IPT_COIN3
| IPT_JOYSTICK_DOWN
| IPT_JOYSTICK_LEFT
| IPT_JOYSTICK_RIGHT
| IPT_JOYSTICK_UP
| IPT_SERVICE
| IPT_START1
| IPT_START2
| IPT_TILT
| IPT_UNUSED.

Inductive active_level : Type :=
| IP_ACTIVE_HIGH
| IP_ACTIVE_LOW.

(** A name given as a literal or through [DEF_STR]. *)
Inductive port_text : Type :=
| STR (s : string)
| DEF_STR (id : string).

Inductive port_modifier : Type :=
| PORT_NAME (s : string)
| PORT_CODE (code : string)
| PORT_COCKTAIL.

(** The lines of an [INPUT_PORTS_START] block; the [PORT_DIPLOCATION]
    that follows every [PORT_DIPNAME] is its last argument. *)
Inductive port_directive : Type :=
| PORT_START (tag : string)
| PORT_MODIFY (tag : string)
| PORT_INCLUDE (ports : list port_directive)
| PORT_BIT (mask : Z) (active : active_level) (type : ioport_type)
    (mods : list port_modifier)
| PORT_DIPNAME (mask default : Z) (name : port_text) (diplocation : string)
| PORT_DIPSETTING (value : Z) (name : port_text)
| PORT_DIPUNUSED_DIPLOC (mask default : Z) (diplocation : string).

Definition input_ports_killcom : list port_directive :=
  [ PORT_START "IN0";
    PORT_BIT 0x01 IP_ACTIVE_LOW IPT_UNUSED [];
    PORT_BIT 0x02 IP_ACTIVE_LOW IPT_UNUSED [];
    PORT_BIT 0x04 IP_ACTIVE_LOW IPT_TILT [];
    PORT_BIT 0x08 IP_ACTIVE_LOW IPT_SERVICE [PORT_NAME "Do Tests"; PORT_CODE "KEYCODE_F1"];
    PORT_BIT 0x10 IP_ACTIVE_LOW IPT_SERVICE [PORT_NAME "Select Test"; PORT_CODE "KEYCODE_F2"];
    PORT_BIT 0x20 IP_ACTIVE_HIGH IPT_COIN3 [];
    PORT_BIT 0x40 IP_ACTIVE_HIGH IPT_COIN2 [];
    PORT_BIT 0x80 IP_ACTIVE_HIGH IPT_COIN1 [];
    PORT_START "IN1";
    PORT_BIT 0x01 IP_ACTIVE_LOW IPT_UNUSED [];
    PORT_BIT 0x02 IP_ACTIVE_LOW IPT_UNUSED [];
    PORT_BIT 0x04 IP_ACTIVE_LOW IPT_UNUSED [];
    PORT_BIT 0x08 IP_ACTIVE_LOW IPT_UNUSED [];
    PORT_BIT 0x10 IP_ACTIVE_LOW IPT_UNUSED [];
    PORT_BIT 0x20 IP_ACTIVE_LOW IPT_START2 [];
    PORT_BIT 0x40 IP_ACTIVE_LOW IPT_UNUSED [];
    PORT_BIT 0x80 IP_ACTIVE_LOW IPT_START1 [];
    PORT_START "IN2";
    PORT_BIT 0x01 IP_ACTIVE_LOW IPT_BUTTON4 [];
    PORT_BIT 0x02 IP_ACTIVE_LOW IPT_BUTTON2 [];
    PORT_BIT 0x04 IP_ACTIVE_LOW IPT_BUTTON3 [];
    PORT_BIT 0x08 IP_ACTIVE_LOW IPT_BUTTON1 [];
    PORT_BIT 0x10 IP_ACTIVE_LOW IPT_JOYSTICK_LEFT [];
    PORT_BIT 0x20 IP_ACTIVE_LOW IPT_JOYSTICK_DOWN [];
    PORT_BIT 0x40 IP_ACTIVE_LOW IPT_JOYSTICK_RIGHT [];
    PORT_BIT 0x80 IP_ACTIVE_LOW IPT_JOYSTICK_UP [];
    PORT_START "IN3";
    PORT_BIT 0x01 IP_ACTIVE_LOW IPT_BUTTON4 [PORT_COCKTAIL];
    PORT_BIT 0x02 IP_ACTIVE_LOW IPT_BUTTON2 [PORT_COCKTAIL];
    PORT_BIT 0x04 IP_ACTIVE_LOW IPT_BUTTON3 [PORT_COCKTAIL];
    PORT_BIT 0x08 IP_ACTIVE_LOW IPT_BUTTON1 [PORT_COCKTAIL];
    PORT_BIT 0x10 IP_ACTIVE_LOW IPT_JOYSTICK_LEFT [PORT_COCKTAIL];
    PORT_BIT 0x20 IP_ACTIVE_LOW IPT_JOYSTICK_DOWN [PORT_COCKTAIL];
    PORT_BIT 0x40 IP_ACTIVE_LOW IPT_JOYSTICK_RIGHT [PORT_COCKTAIL];
    PORT_BIT 0x80 IP_ACTIVE_LOW IPT_JOYSTICK_UP [PORT_COCKTAIL];
    PORT_START "DSW0";
    PORT_DIPNAME 0x03 0x03 (STR "Coinage P1/P2") "SW1:1,2";
    PORT_DIPSETTING 0x03 (STR "1 Credit/2 Credits");
    PORT_DIPSETTING 0x02 (STR "2 Credits/3 Credits");
    PORT_DIPSETTING 0x01 (STR "2 Credits/4 Credits");
    PORT_DIPSETTING 0x00 (DEF_STR "Free_Play");
    PORT_DIPNAME 0x04 0x04 (DEF_STR "Unused") "SW1:3";
    PORT_DIPSETTING 0x04 (DEF_STR "Off");
    PORT_DIPSETTING 0x00 (DEF_STR "On");
    PORT_DIPNAME 0x08 0x08 (DEF_STR "Lives") "SW1:4";
    PORT_DIPSETTING 0x00 (STR "4");
    PORT_DIPSETTING 0x08 (STR "5");
    PORT_DIPUNUSED_DIPLOC 0x10 0x10 "SW1:5";
    PORT_DIPUNUSED_DIPLOC 0x20 0x20 "SW1:6";
    PORT_DIPNAME 0xc0 0xc0 (STR "Reaction") "SW1:7,8";
    PORT_DIPSETTING 0xc0 (STR "Slowest");
    PORT_DIPSETTING 0x80 (STR "Slow");
    PORT_DIPSETTING 0x40 (STR "Fast");
    PORT_DIPSETTING 0x00 (STR "Fastest");
    PORT_START "DSW1";
    PORT_DIPUNUSED_DIPLOC 0x01 0x01 "SW2:1";
    PORT_DIPUNUSED_DIPLOC 0x02 0x02 "SW2:2";
    PORT_DIPUNUSED_DIPLOC 0x04 0x04 "SW2:3";
    PORT_DIPUNUSED_DIPLOC 0x08 0x08 "SW2:4";
    PORT_DIPUNUSED_DIPLOC 0x10 0x10 "SW2:5";
    PORT_DIPUNUSED_DIPLOC 0x20 0x20 "SW2:6";
    PORT_DIPNAME 0x40 0x40 (DEF_STR "Flip_Screen") "SW2:7";
    PORT_DIPSETTING 0x40 (DEF_STR "Off");
    PORT_DIPSETTING 0x00 (DEF_STR "On");
    PORT_DIPNAME 0x80 0x80 (DEF_STR "Cabinet") "SW2:8";
    PORT_DIPSETTING 0x80 (DEF_STR "Upright");
    PORT_DIPSETTING 0x00 (DEF_STR "Cocktail");
    PORT_START "DSW2";
    PORT_DIPUNUSED_DIPLOC 0x01 0x01 "SW3:1";
    PORT_DIPUNUSED_DIPLOC 0x02 0x02 "SW3:2";
    PORT_DIPUNUSED_DIPLOC 0x04 0x04 "SW3:3";
    PORT_DIPUNUSED_DIPLOC 0x08 0x08 "SW3:4";
    PORT_DIPUNUSED_DIPLOC 0x10 0x10 "SW3:5";
    PORT_DIPUNUSED_DIPLOC 0x20 0x20 "SW3:6";
    PORT_DIPUNUSED_DIPLOC 0x40 0x40 "SW3:7";
    PORT_DIPUNUSED_DIPLOC 0x80 0x80 "SW3:8";
    PORT_START "DSW3";
    PORT_DIPUNUSED_DIPLOC 0x01 0x01 "SW4:1";
    PORT_DIPUNUSED_DIPLOC 0x02 0x02 "SW4:2";
    PORT_DIPUNUSED_DIPLOC 0x04 0x04 "SW4:3";
    PORT_DIPUNUSED_DIPLOC 0x08 0x08 "SW4:4";
    PORT_DIPUNUSED_DIPLOC 0x10 0x10 "SW4:5";
    PORT_DIPUNUSED_DIPLOC 0x20 0x20 "SW4:6";
    PORT_DIPUNUSED_DIPLOC 0x40 0x40 "SW4:7";
    PORT_DIPUNUSED_DIPLOC 0x80 0x80 "SW4:8" ].

Definition input_ports_megatack : list port_directive :=
  [ PORT_START "IN0";
    PORT_BIT 0x01 IP_ACTIVE_LOW IPT_UNUSED [];
    PORT_BIT 0x02 IP_ACTIVE_LOW IPT_UNUSED [];
    PORT_BIT 0x04 IP_ACTIVE_LOW IPT_TILT [];
    PORT_BIT 0x08 IP_ACTIVE_LOW IPT_SERVICE [PORT_NAME "Do Tests"; PORT_CODE "KEYCODE_F1"];
    PORT_BIT 0x10 IP_ACTIVE_LOW IPT_SERVICE [PORT_NAME "Select Test"; PORT_CODE "KEYCODE_F2"];
    PORT_BIT 0x20 IP_ACTIVE_HIGH IPT_COIN3 [];
    PORT_BIT 0x40 IP_ACTIVE_HIGH IPT_COIN2 [];
    PORT_BIT 0x80 IP_ACTIVE_HIGH IPT_COIN1 [];
    PORT_START "IN1";
    PORT_BIT 0x01 IP_ACTIVE_LOW IPT_UNUSED [];
    PORT_BIT 0x02 IP_ACTIVE_LOW IPT_UNUSED [];
    PORT_BIT 0x04 IP_ACTIVE_LOW IPT_UNUSED [];
    PORT_BIT 0x08 IP_ACTIVE_LOW IPT_UNUSED [];
    PORT_BIT 0x10 IP_ACTIVE_LOW IPT_UNUSED [];
    PORT_BIT 0x20 IP_ACTIVE_LOW IPT_START2 [];
    PORT_BIT 0x40 IP_ACTIVE_LOW IPT_UNUSED [];
    PORT_BIT 0x80 IP_ACTIVE_LOW IPT_START1 [];
    PORT_START "IN2";
    PORT_BIT 0x01 IP_ACTIVE_LOW IPT_UNUSED [];
    PORT_BIT 0x02 IP_ACTIVE_LOW IPT_BUTTON1 [];
    PORT_BIT 0x04 IP_ACTIVE_LOW IPT_UNUSED [];
    PORT_BIT 0x08 IP_ACTIVE_LOW IPT_UNUSED [];
    PORT_BIT 0x10 IP_ACTIVE_LOW IPT_JOYSTICK_LEFT [];
    PORT_BIT 0x20 IP_ACTIVE_LOW IPT_UNUSED [];
    PORT_BIT 0x40 IP_ACTIVE_LOW IPT_JOYSTICK_RIGHT [];
    PORT_BIT 0x80 IP_ACTIVE_LOW IPT_UNUSED [];
    PORT_START "IN3";
    PORT_BIT 0x01 IP_ACTIVE_LOW IPT_UNUSED [];
    PORT_BIT 0x02 IP_ACTIVE_LOW IPT_BUTTON1 [PORT_COCKTAIL];
    PORT_BIT 0x04 IP_ACTIVE_LOW IPT_UNUSED [];
    PORT_BIT 0x08 IP_ACTIVE_LOW IPT_UNUSED [];
    PORT_BIT 0x10 IP_ACTIVE_LOW IPT_JOYSTICK_LEFT [PORT_COCKTAIL];
    PORT_BIT 0x20 IP_ACTIVE_LOW IPT_UNUSED [];
    PORT_BIT 0x40 IP_ACTIVE_LOW IPT_JOYSTICK_RIGHT [PORT_COCKTAIL];
    PORT_BIT 0x80 IP_ACTIVE_LOW IPT_UNUSED [];
    PORT_START "DSW0";
    PORT_DIPNAME 0x03 0x03 (STR "Coinage P1/P2") "SW1:1,2";
    PORT_DIPSETTING 0x03 (STR "1 Credit/2 Credits");
    PORT_DIPSETTING 0x02 (STR "2 Credits/3 Credits");
    PORT_DIPSETTING 0x01 (STR "2 Credits/4 Credits");
    PORT_DIPSETTING 0x00 (DEF_STR "Free_Play");
    PORT_DIPUNUSED_DIPLOC 0x04 0x04 "SW1:3";
    PORT_DIPSETTING 0x00 (DEF_STR "On");
    PORT_DIPNAME 0x08 0x08 (DEF_STR "Lives") "SW1:4";
    PORT_DIPSETTING 0x08 (STR "3");
    PORT_DIPSETTING 0x00 (STR "4");
    PORT_DIPUNUSED_DIPLOC 0x10 0x10 "SW1:5";
    PORT_DIPUNUSED_DIPLOC 0x20 0x20 "SW1:6";
    PORT_DIPUNUSED_DIPLOC 0x40 0x40 "SW1:7";
    PORT_DIPUNUSED_DIPLOC 0x80 0x80 "SW1:8";
    PORT_START "DSW1";
    PORT_DIPNAME 0x07 0x07 (DEF_STR "Bonus_Life") "SW2:1,2,3";
    PORT_DIPSETTING 0x07 (STR "20000");
    PORT_DIPSETTING 0x06 (STR "30000");
    PORT_DIPSETTING 0x05 (STR "40000");
    PORT_DIPSETTING 0x04 (STR "50000");
    PORT_DIPSETTING 0x03 (STR "60000");
    PORT_DIPSETTING 0x02 (STR "70000");
    PORT_DIPSETTING 0x01 (STR "80000");
    PORT_DIPSETTING 0x00 (STR "90000");
    PORT_DIPUNUSED_DIPLOC 0x08 0x08 "SW2:4";
    PORT_DIPNAME 0x10 0x10 (STR "Monitor View") "SW2:5";
    PORT_DIPSETTING 0x10 (STR "Direct");
    PORT_DIPSETTING 0x00 (STR "Mirror");
    PORT_DIPNAME 0x20 0x20 (STR "Monitor Orientation") "SW2:6";
    PORT_DIPSETTING 0x20 (STR "Horizontal");
    PORT_DIPSETTING 0x00 (STR "Vertical");
    PORT_DIPNAME 0x40 0x40 (DEF_STR "Flip_Screen") "SW2:7";
    PORT_DIPSETTING 0x40 (DEF_STR "Off");
    PORT_DIPSETTING 0x00 (DEF_STR "On");
    PORT_DIPNAME 0x80 0x80 (DEF_STR "Cabinet") "SW2:8";
    PORT_DIPSETTING 0x80 (DEF_STR "Upright");
    PORT_DIPSETTING 0x00 (DEF_STR "Cocktail");
    PORT_START "DSW2";
    PORT_DIPNAME 0x01 0x00 (STR "Sound Test A 0") "SW3:1";
    PORT_DIPSETTING 0x01 (DEF_STR "Off");
    PORT_DIPSETTING 0x00 (DEF_STR "On");
    PORT_DIPNAME 0x02 0x00 (STR "Sound Test A 1") "SW3:2";
    PORT_DIPSETTING 0x02 (DEF_STR "Off");
    PORT_DIPSETTING 0x00 (DEF_STR "On");
    PORT_DIPNAME 0x04 0x00 (STR "Sound Test A 2") "SW3:3";
    PORT_DIPSETTING 0x04 (DEF_STR "Off");
    PORT_DIPSETTING 0x00 (DEF_STR "On");
    PORT_DIPNAME 0x08 0x00 (STR "Sound Test A 3") "SW3:4";
    PORT_DIPSETTING 0x08 (DEF_STR "Off");
    PORT_DIPSETTING 0x00 (DEF_STR "On");
    PORT_DIPNAME 0x10 0x00 (STR "Sound Test A 4") "SW3:5";
    PORT_DIPSETTING 0x10 (DEF_STR "Off");
    PORT_DIPSETTING 0x00 (DEF_STR "On");
    PORT_DIPNAME 0x20 0x00 (STR "Sound Test A 5") "SW3:6";
    PORT_DIPSETTING 0x20 (DEF_STR "Off");
    PORT_DIPSETTING 0x00 (DEF_STR "On");
    PORT_DIPNAME 0x40 0x00 (STR "Sound Test A 6") "SW3:7";
    PORT_DIPSETTING 0x40 (DEF_STR "Off");
    PORT_DIPSETTING 0x00 (DEF_STR "On");
    PORT_DIPNAME 0x80 0x80 (STR "Sound Test Enable") "SW3:8";
    PORT_DIPSETTING 0x80 (DEF_STR "Off");
    PORT_DIPSETTING 0x00 (DEF_STR "On");
    PORT_START "DSW3";
    PORT_DIPNAME 0x01 0x00 (STR "Sound Test B 0") "SW4:1";
    PORT_DIPSETTING 0x01 (DEF_STR "Off");
    PORT_DIPSETTING 0x00 (DEF_STR "On");
    PORT_DIPNAME 0x02 0x00 (STR "Sound Test B 1") "SW4:2";
    PORT_DIPSETTING 0x02 (DEF_STR "Off");
    PORT_DIPSETTING 0x00 (DEF_STR "On");
    PORT_DIPNAME 0x04 0x00 (STR "Sound Test B 2") "SW4:3";
    PORT_DIPSETTING 0x04 (DEF_STR "Off");
    PORT_DIPSETTING 0x00 (DEF_STR "On");
    PORT_DIPNAME 0x08 0x00 (STR "Sound Test B 3") "SW4:4";
    PORT_DIPSETTING 0x08 (DEF_STR "Off");
    PORT_DIPSETTING 0x00 (DEF_STR "On");
    PORT_DIPNAME 0x10 0x00 (STR "Sound Test B 4") "SW4:5";
    PORT_DIPSETTING 0x10 (DEF_STR "Off");
    PORT_DIPSETTING 0x00 (DEF_STR "On");
    PORT_DIPNAME 0x20 0x00 (STR "Sound Test B 5") "SW4:6";
    PORT_DIPSETTING 0x20 (DEF_STR "Off");
    PORT_DIPSETTING 0x00 (DEF_STR "On");
    PORT_DIPNAME 0x40 0x00 (STR "Sound Test B 6") "SW4:7";
    PORT_DIPSETTING 0x40 (DEF_STR "Off");
    PORT_DIPSETTING 0x00 (DEF_STR "On");
    PORT_DIPNAME 0x80 0x00 (STR "Sound Test B 7") "SW4:8";
    PORT_DIPSETTING 0x80 (DEF_STR "Off");
    PORT_DIPSETTING 0x00 (DEF_STR "On") ].

Definition input_ports_challeng : list port_directive :=
  [ PORT_START "IN0";
    PORT_BIT 0x01 IP_ACTIVE_LOW IPT_UNUSED [];
    PORT_BIT 0x02 IP_ACTIVE_LOW IPT_UNUSED [];
    PORT_BIT 0x04 IP_ACTIVE_LOW IPT_TILT [];
    PORT_BIT 0x08 IP_ACTIVE_LOW IPT_SERVICE [PORT_NAME "Do Tests"; PORT_CODE "KEYCODE_F1"];
    PORT_BIT 0x10 IP_ACTIVE_LOW IPT_SERVICE [PORT_NAME "Select Test"; PORT_CODE "KEYCODE_F2"];
    PORT_BIT 0x20 IP_ACTIVE_LOW IPT_COIN3 [];
    PORT_BIT 0x40 IP_ACTIVE_LOW IPT_COIN2 [];
    PORT_BIT 0x80 IP_ACTIVE_LOW IPT_COIN1 [];
    PORT_START "IN1";
    PORT_BIT 0x01 IP_ACTIVE_LOW IPT_UNUSED [];
    PORT_BIT 0x02 IP_ACTIVE_LOW IPT_UNUSED [];
    PORT_BIT 0x04 IP_ACTIVE_LOW IPT_UNUSED [];
    PORT_BIT 0x08 IP_ACTIVE_LOW IPT_UNUSED [];
    PORT_BIT 0x10 IP_ACTIVE_LOW IPT_UNUSED [];
    PORT_BIT 0x20 IP_ACTIVE_LOW IPT_START2 [];
    PORT_BIT 0x40 IP_ACTIVE_LOW IPT_UNUSED [];
    PORT_BIT 0x80 IP_ACTIVE_LOW IPT_START1 [];
    PORT_START "IN2";
    PORT_BIT 0x01 IP_ACTIVE_LOW IPT_BUTTON3 [];
    PORT_BIT 0x02 IP_ACTIVE_LOW IPT_BUTTON1 [];
    PORT_BIT 0x04 IP_ACTIVE_LOW IPT_UNUSED [];
    PORT_BIT 0x08 IP_ACTIVE_LOW IPT_BUTTON2 [];
    PORT_BIT 0x10 IP_ACTIVE_LOW IPT_JOYSTICK_LEFT [];
    PORT_BIT 0x20 IP_ACTIVE_LOW IPT_UNUSED [];
    PORT_BIT 0x40 IP_ACTIVE_LOW IPT_JOYSTICK_RIGHT [];
    PORT_BIT 0x80 IP_ACTIVE_LOW IPT_UNUSED [];
    PORT_START "IN3";
    PORT_BIT 0x01 IP_ACTIVE_LOW IPT_BUTTON3 [PORT_COCKTAIL];
    PORT_BIT 0x02 IP_ACTIVE_LOW IPT_BUTTON1 [PORT_COCKTAIL];
    PORT_BIT 0x04 IP_ACTIVE_LOW IPT_UNUSED [];
    PORT_BIT 0x08 IP_ACTIVE_LOW IPT_BUTTON2 [PORT_COCKTAIL];
    PORT_BIT 0x10 IP_ACTIVE_LOW IPT_JOYSTICK_LEFT [PORT_COCKTAIL];
    PORT_BIT 0x20 IP_ACTIVE_LOW IPT_UNUSED [];
    PORT_BIT 0x40 IP_ACTIVE_LOW IPT_JOYSTICK_RIGHT [PORT_COCKTAIL];
    PORT_BIT 0x80 IP_ACTIVE_LOW IPT_UNUSED [];
    PORT_START "DSW0";
    PORT_DIPNAME 0x03 0x03 (STR "Coinage P1/P2") "SW1:1,2";
    PORT_DIPSETTING 0x03 (STR "1 Credit/2 Credits");
    PORT_DIPSETTING 0x02 (STR "2 Credits/3 Credits");
    PORT_DIPSETTING 0x01 (STR "2 Credits/4 Credits");
    PORT_DIPSETTING 0x00 (DEF_STR "Free_Play");
    PORT_DIPUNUSED_DIPLOC 0x04 0x04 "SW1:3";
    PORT_DIPUNUSED_DIPLOC 0x08 0x08 "SW1:4";
    PORT_DIPUNUSED_DIPLOC 0x10 0x10 "SW1:5";
    PORT_DIPUNUSED_DIPLOC 0x20 0x20 "SW1:6";
    PORT_DIPNAME 0xc0 0xc0 (DEF_STR "Lives") "SW1:7,8";
    PORT_DIPSETTING 0xc0 (STR "3");
    PORT_DIPSETTING 0x80 (STR "4");
    PORT_DIPSETTING 0x40 (STR "5");
    PORT_DIPSETTING 0x00 (STR "6");
    PORT_START "DSW1";
    PORT_DIPNAME 0x07 0x07 (DEF_STR "Bonus_Life") "SW2:1,2,3";
    PORT_DIPSETTING 0x01 (STR "20000");
    PORT_DIPSETTING 0x00 (STR "30000");
    PORT_DIPSETTING 0x07 (STR "40000");
    PORT_DIPSETTING 0x06 (STR "50000");
    PORT_DIPSETTING 0x05 (STR "60000");
    PORT_DIPSETTING 0x04 (STR "70000");
    PORT_DIPSETTING 0x03 (STR "80000");
    PORT_DIPSETTING 0x02 (STR "90000");
    PORT_DIPUNUSED_DIPLOC 0x08 0x08 "SW2:4";
    PORT_DIPNAME 0x10 0x10 (STR "Monitor View") "SW2:5";
    PORT_DIPSETTING 0x10 (STR "Direct");
    PORT_DIPSETTING 0x00 (STR "Mirror");
    PORT_DIPNAME 0x20 0x20 (STR "Monitor Orientation") "SW2:6";
    PORT_DIPSETTING 0x20 (STR "Horizontal");
    PORT_DIPSETTING 0x00 (STR "Vertical");
    PORT_DIPNAME 0x40 0x40 (DEF_STR "Flip_Screen") "SW2:7";
    PORT_DIPSETTING 0x40 (DEF_STR "Off");
    PORT_DIPSETTING 0x00 (DEF_STR "On");
    PORT_DIPNAME 0x80 0x80 (DEF_STR "Cabinet") "SW2:8";
    PORT_DIPSETTING 0x80 (DEF_STR "Upright");
    PORT_DIPSETTING 0x00 (DEF_STR "Cocktail");
    PORT_START "DSW2";
    PORT_DIPNAME 0x01 0x00 (STR "Sound Test A 0") "SW3:1";
    PORT_DIPSETTING 0x01 (DEF_STR "Off");
    PORT_DIPSETTING 0x00 (DEF_STR "On");
    PORT_DIPNAME 0x02 0x00 (STR "Sound Test A 1") "SW3:2";
    PORT_DIPSETTING 0x02 (DEF_STR "Off");
    PORT_DIPSETTING 0x00 (DEF_STR "On");
    PORT_DIPNAME 0x04 0x00 (STR "Sound Test A 2") "SW3:3";
    PORT_DIPSETTING 0x04 (DEF_STR "Off");
    PORT_DIPSETTING 0x00 (DEF_STR "On");
    PORT_DIPNAME 0x08 0x00 (STR "Sound Test A 3") "SW3:4";
    PORT_DIPSETTING 0x08 (DEF_STR "Off");
    PORT_DIPSETTING 0x00 (DEF_STR "On");
    PORT_DIPNAME 0x10 0x00 (STR "Sound Test A 4") "SW3:5";
    PORT_DIPSETTING 0x10 (DEF_STR "Off");
    PORT_DIPSETTING 0x00 (DEF_STR "On");
    PORT_DIPNAME 0x20 0x00 (STR "Sound Test A 5") "SW3:6";
    PORT_DIPSETTING 0x20 (DEF_STR "Off");
    PORT_DIPSETTING 0x00 (DEF_STR "On");
    PORT_DIPNAME 0x40 0x00 (STR "Sound Test A 6") "SW3:7";
    PORT_DIPSETTING 0x40 (DEF_STR "Off");
    PORT_DIPSETTING 0x00 (DEF_STR "On");
    PORT_DIPNAME 0x80 0x80 (STR "Sound Test Enable") "SW3:8";
    PORT_DIPSETTING 0x80 (DEF_STR "Off");
    PORT_DIPSETTING 0x00 (DEF_STR "On");
    PORT_START "DSW3";
    PORT_DIPNAME 0x01 0x00 (STR "Sound Test B 0") "SW4:1";
    PORT_DIPSETTING 0x01 (DEF_STR "Off");
    PORT_DIPSETTING 0x00 (DEF_STR "On");
    PORT_DIPNAME 0x02 0x00 (STR "Sound Test B 1") "SW4:2";
    PORT_DIPSETTING 0x02 (DEF_STR "Off");
    PORT_DIPSETTING 0x00 (DEF_STR "On");
    PORT_DIPNAME 0x04 0x00 (STR "Sound Test B 2") "SW4:3";
    PORT_DIPSETTING 0x04 (DEF_STR "Off");
    PORT_DIPSETTING 0x00 (DEF_STR "On");
    PORT_DIPNAME 0x08 0x00 (STR "Sound Test B 3") "SW4:4";
    PORT_DIPSETTING 0x08 (DEF_STR "Off");
    PORT_DIPSETTING 0x00 (DEF_STR "On");
    PORT_DIPNAME 0x10 0x00 (STR "Sound Test B 4") "SW4:5";
    PORT_DIPSETTING 0x10 (DEF_STR "Off");
    PORT_DIPSETTING 0x00 (DEF_STR "On");
    PORT_DIPNAME 0x20 0x00 (STR "Sound Test B 5") "SW4:6";
    PORT_DIPSETTING 0x20 (DEF_STR "Off");
    PORT_DIPSETTING 0x00 (DEF_STR "On");
    PORT_DIPNAME 0x40 0x00 (STR "Sound Test B 6") "SW4:7";
    PORT_DIPSETTING 0x40 (DEF_STR "Off");
    PORT_DIPSETTING 0x00 (DEF_STR "On");
    PORT_DIPNAME 0x80 0x00 (STR "Sound Test B 7") "SW4:8";
    PORT_DIPSETTING 0x80 (DEF_STR "Off");
    PORT_DIPSETTING 0x00 (DEF_STR "On") ].

Definition input_ports_kaos : list port_directive :=
  [ PORT_START "IN0";
    PORT_BIT 0x01 IP_ACTIVE_LOW IPT_UNUSED [];
    PORT_BIT 0x02 IP_ACTIVE_LOW IPT_UNUSED [];
    PORT_BIT 0x04 IP_ACTIVE_LOW IPT_TILT [];
    PORT_BIT 0x08 IP_ACTIVE_LOW IPT_SERVICE [PORT_NAME "Do Tests"; PORT_CODE "KEYCODE_F1"];
    PORT_BIT 0x10 IP_ACTIVE_LOW IPT_SERVICE [PORT_NAME "Select Test"; PORT_CODE "KEYCODE_F2"];
    PORT_BIT 0x20 IP_ACTIVE_HIGH IPT_COIN3 [];
    PORT_BIT 0x40 IP_ACTIVE_HIGH IPT_COIN2 [];
    PORT_BIT 0x80 IP_ACTIVE_HIGH IPT_COIN1 [];
    PORT_START "IN1";
    PORT_BIT 0x01 IP_ACTIVE_LOW IPT_UNUSED [];
    PORT_BIT 0x02 IP_ACTIVE_LOW IPT_UNUSED [];
    PORT_BIT 0x04 IP_ACTIVE_LOW IPT_UNUSED [];
    PORT_BIT 0x08 IP_ACTIVE_LOW IPT_UNUSED [];
    PORT_BIT 0x10 IP_ACTIVE_LOW IPT_UNUSED [];
    PORT_BIT 0x20 IP_ACTIVE_LOW IPT_START2 [];
    PORT_BIT 0x40 IP_ACTIVE_LOW IPT_UNUSED [];
    PORT_BIT 0x80 IP_ACTIVE_LOW IPT_START1 [];
    PORT_START "IN2";
    PORT_BIT 0x01 IP_ACTIVE_LOW IPT_UNUSED [];
    PORT_BIT 0x02 IP_ACTIVE_LOW IPT_BUTTON1 [];
    PORT_BIT 0x04 IP_ACTIVE_LOW IPT_JOYSTICK_RIGHT [];
    PORT_BIT 0x08 IP_ACTIVE_LOW IPT_JOYSTICK_LEFT [];
    PORT_BIT 0x10 IP_ACTIVE_LOW IPT_BUTTON2 [];
    PORT_BIT 0x20 IP_ACTIVE_LOW IPT_UNUSED [];
    PORT_BIT 0x40 IP_ACTIVE_LOW IPT_BUTTON3 [];
    PORT_BIT 0x80 IP_ACTIVE_LOW IPT_UNUSED [];
    PORT_START "IN3";
    PORT_BIT 0x01 IP_ACTIVE_LOW IPT_UNUSED [];
    PORT_BIT 0x02 IP_ACTIVE_LOW IPT_BUTTON2 [PORT_COCKTAIL];
    PORT_BIT 0x04 IP_ACTIVE_LOW IPT_BUTTON3 [PORT_COCKTAIL];
    PORT_BIT 0x08 IP_ACTIVE_LOW IPT_BUTTON1 [PORT_COCKTAIL];
    PORT_BIT 0x10 IP_ACTIVE_LOW IPT_JOYSTICK_LEFT [PORT_COCKTAIL];
    PORT_BIT 0x20 IP_ACTIVE_LOW IPT_UNUSED [];
    PORT_BIT 0x40 IP_ACTIVE_LOW IPT_JOYSTICK_RIGHT [PORT_COCKTAIL];
    PORT_BIT 0x80 IP_ACTIVE_LOW IPT_UNUSED [];
    PORT_START "DSW0";
    PORT_DIPNAME 0x0f 0x0e (DEF_STR "Coinage") "SW1:1,2,3,4";
    PORT_DIPSETTING 0x00 (DEF_STR "2C_1C");
    PORT_DIPSETTING 0x0e (DEF_STR "1C_1C");
    PORT_DIPSETTING 0x0d (DEF_STR "1C_2C");
    PORT_DIPSETTING 0x0c (DEF_STR "1C_3C");
    PORT_DIPSETTING 0x0b (DEF_STR "1C_4C");
    PORT_DIPSETTING 0x0a (DEF_STR "1C_5C");
    PORT_DIPSETTING 0x09 (DEF_STR "1C_6C");
    PORT_DIPSETTING 0x08 (DEF_STR "1C_7C");
    PORT_DIPSETTING 0x07 (DEF_STR "1C_8C");
    PORT_DIPSETTING 0x06 (DEF_STR "1C_9C");
    PORT_DIPSETTING 0x05 (STR "1 Coin/10 Credits");
    PORT_DIPSETTING 0x04 (STR "1 Coin/11 Credits");
    PORT_DIPSETTING 0x03 (STR "1 Coin/12 Credits");
    PORT_DIPSETTING 0x02 (STR "1 Coin/13 Credits");
    PORT_DIPSETTING 0x01 (STR "1 Coin/14 Credits");
    PORT_DIPSETTING 0x0f (DEF_STR "2C_3C");
    PORT_DIPNAME 0x10 0x00 (DEF_STR "Demo_Sounds") "SW1:5";
    PORT_DIPSETTING 0x10 (DEF_STR "Off");
    PORT_DIPSETTING 0x00 (DEF_STR "On");
    PORT_DIPNAME 0x60 0x60 (STR "Max Credits") "SW1:6,7";
    PORT_DIPSETTING 0x60 (STR "10");
    PORT_DIPSETTING 0x40 (STR "20");
    PORT_DIPSETTING 0x20 (STR "30");
    PORT_DIPSETTING 0x00 (STR "40");
    PORT_DIPNAME 0x80 0x80 (DEF_STR "Free_Play") "SW1:8";
    PORT_DIPSETTING 0x80 (DEF_STR "Off");
    PORT_DIPSETTING 0x00 (DEF_STR "On");
    PORT_START "DSW1";
    PORT_DIPNAME 0x01 0x01 (DEF_STR "Lives") "SW2:1";
    PORT_DIPSETTING 0x01 (STR "3");
    PORT_DIPSETTING 0x00 (STR "4");
    PORT_DIPNAME 0x02 0x00 (STR "Speed") "SW2:2";
    PORT_DIPSETTING 0x00 (STR "Slow");
    PORT_DIPSETTING 0x02 (STR "Fast");
    PORT_DIPNAME 0x0c 0x00 (DEF_STR "Bonus_Life") "SW2:3,4";
    PORT_DIPSETTING 0x0c (STR "No Bonus");
    PORT_DIPSETTING 0x08 (STR "10k");
    PORT_DIPSETTING 0x04 (STR "10k 30k");
    PORT_DIPSETTING 0x00 (STR "10k 30k 60k");
    PORT_DIPNAME 0x10 0x10 (STR "Number of $") "SW2:5";
    PORT_DIPSETTING 0x10 (STR "8");
    PORT_DIPSETTING 0x00 (STR "12");
    PORT_DIPNAME 0x20 0x00 (STR "Bonus erg") "SW2:6";
    PORT_DIPSETTING 0x20 (STR "Every other screen");
    PORT_DIPSETTING 0x00 (STR "Every screen");
    PORT_DIPUNUSED_DIPLOC 0x40 0x40 "SW2:7";
    PORT_DIPNAME 0x80 0x80 (DEF_STR "Cabinet") "SW2:8";
    PORT_DIPSETTING 0x80 (DEF_STR "Upright");
    PORT_DIPSETTING 0x00 (DEF_STR "Cocktail");
    PORT_START "DSW2";
    PORT_DIPUNUSED_DIPLOC 0x01 0x01 "SW3:1";
    PORT_DIPUNUSED_DIPLOC 0x02 0x02 "SW3:2";
    PORT_DIPUNUSED_DIPLOC 0x04 0x04 "SW3:3";
    PORT_DIPUNUSED_DIPLOC 0x08 0x08 "SW3:4";
    PORT_DIPUNUSED_DIPLOC 0x10 0x10 "SW3:5";
    PORT_DIPUNUSED_DIPLOC 0x20 0x20 "SW3:6";
    PORT_DIPUNUSED_DIPLOC 0x40 0x40 "SW3:7";
    PORT_DIPUNUSED_DIPLOC 0x80 0x80 "SW3:8";
    PORT_START "DSW3";
    PORT_DIPUNUSED_DIPLOC 0x01 0x01 "SW4:1";
    PORT_DIPUNUSED_DIPLOC 0x02 0x02 "SW4:2";
    PORT_DIPUNUSED_DIPLOC 0x04 0x04 "SW4:3";
    PORT_DIPUNUSED_DIPLOC 0x08 0x08 "SW4:4";
    PORT_DIPUNUSED_DIPLOC 0x10 0x10 "SW4:5";
    PORT_DIPUNUSED_DIPLOC 0x20 0x20 "SW4:6";
    PORT_DIPUNUSED_DIPLOC 0x40 0x40 "SW4:7";
    PORT_DIPUNUSED_DIPLOC 0x80 0x80 "SW4:8" ].

Definition input_ports_leprechn : list port_directive :=
  [ PORT_START "IN0";
    PORT_BIT 0x01 IP_ACTIVE_LOW IPT_UNUSED [];
    PORT_BIT 0x02 IP_ACTIVE_LOW IPT_UNUSED [];
    PORT_BIT 0x04 IP_ACTIVE_LOW IPT_TILT [];
    PORT_BIT 0x08 IP_ACTIVE_LOW IPT_SERVICE [PORT_NAME "Do Tests"; PORT_CODE "KEYCODE_F1"];
    PORT_BIT 0x10 IP_ACTIVE_LOW IPT_SERVICE [PORT_NAME "Select Test"; PORT_CODE "KEYCODE_F2"];
    PORT_BIT 0x20 IP_ACTIVE_LOW IPT_UNUSED [];
    PORT_BIT 0x40 IP_ACTIVE_HIGH IPT_COIN2 [];
    PORT_BIT 0x80 IP_ACTIVE_HIGH IPT_COIN1 [];
    PORT_START "IN1";
    PORT_BIT 0x01 IP_ACTIVE_LOW IPT_UNUSED [];
    PORT_BIT 0x02 IP_ACTIVE_LOW IPT_UNUSED [];
    PORT_BIT 0x04 IP_ACTIVE_LOW IPT_UNUSED [];
    PORT_BIT 0x08 IP_ACTIVE_LOW IPT_UNUSED [];
    PORT_BIT 0x10 IP_ACTIVE_LOW IPT_UNUSED [];
    PORT_BIT 0x20 IP_ACTIVE_LOW IPT_START2 [];
    PORT_BIT 0x40 IP_ACTIVE_LOW IPT_UNUSED [];
    PORT_BIT 0x80 IP_ACTIVE_LOW IPT_START1 [];
    PORT_START "IN2";
    PORT_BIT 0x01 IP_ACTIVE_LOW IPT_UNUSED [];
    PORT_BIT 0x02 IP_ACTIVE_LOW IPT_UNUSED [];
    PORT_BIT 0x04 IP_ACTIVE_LOW IPT_UNUSED [];
    PORT_BIT 0x08 IP_ACTIVE_LOW IPT_UNUSED [];
    PORT_BIT 0x10 IP_ACTIVE_LOW IPT_JOYSTICK_LEFT [];
    PORT_BIT 0x20 IP_ACTIVE_LOW IPT_JOYSTICK_DOWN [];
    PORT_BIT 0x40 IP_ACTIVE_LOW IPT_JOYSTICK_RIGHT [];
    PORT_BIT 0x80 IP_ACTIVE_LOW IPT_JOYSTICK_UP [];
    PORT_START "IN3";
    PORT_BIT 0x01 IP_ACTIVE_LOW IPT_UNUSED [];
    PORT_BIT 0x02 IP_ACTIVE_LOW IPT_UNUSED [];
    PORT_BIT 0x04 IP_ACTIVE_LOW IPT_UNUSED [];
    PORT_BIT 0x08 IP_ACTIVE_LOW IPT_UNUSED [];
    PORT_BIT 0x10 IP_ACTIVE_LOW IPT_JOYSTICK_LEFT [PORT_COCKTAIL];
    PORT_BIT 0x20 IP_ACTIVE_LOW IPT_JOYSTICK_DOWN [PORT_COCKTAIL];
    PORT_BIT 0x40 IP_ACTIVE_LOW IPT_JOYSTICK_RIGHT [PORT_COCKTAIL];
    PORT_BIT 0x80 IP_ACTIVE_LOW IPT_JOYSTICK_UP [PORT_COCKTAIL];
    PORT_START "DSW0";
    PORT_DIPNAME 0x09 0x09 (DEF_STR "Coin_B") "SW1:1,4";
    PORT_DIPSETTING 0x09 (DEF_STR "1C_1C");
    PORT_DIPSETTING 0x01 (DEF_STR "1C_5C");
    PORT_DIPSETTING 0x08 (DEF_STR "1C_6C");
    PORT_DIPSETTING 0x00 (DEF_STR "1C_7C");
    PORT_DIPNAME 0x22 0x22 (STR "Max Credits") "SW1:2,6";
    PORT_DIPSETTING 0x22 (STR "10");
    PORT_DIPSETTING 0x20 (STR "20");
    PORT_DIPSETTING 0x02 (STR "30");
    PORT_DIPSETTING 0x00 (STR "40");
    PORT_DIPNAME 0x04 0x04 (DEF_STR "Cabinet") "SW1:3";
    PORT_DIPSETTING 0x04 (DEF_STR "Upright");
    PORT_DIPSETTING 0x00 (DEF_STR "Cocktail");
    PORT_DIPNAME 0x10 0x10 (DEF_STR "Free_Play") "SW1:5";
    PORT_DIPSETTING 0x10 (DEF_STR "Off");
    PORT_DIPSETTING 0x00 (DEF_STR "On");
    PORT_DIPNAME 0xc0 0xc0 (DEF_STR "Coin_A") "SW1:7,8";
    PORT_DIPSETTING 0xc0 (DEF_STR "1C_1C");
    PORT_DIPSETTING 0x40 (DEF_STR "1C_2C");
    PORT_DIPSETTING 0x80 (DEF_STR "1C_3C");
    PORT_DIPSETTING 0x00 (DEF_STR "1C_4C");
    PORT_START "DSW1";
    PORT_DIPNAME 0x01 0x00 (DEF_STR "Demo_Sounds") "SW2:1";
    PORT_DIPSETTING 0x01 (DEF_STR "Off");
    PORT_DIPSETTING 0x00 (DEF_STR "On");
    PORT_DIPUNUSED_DIPLOC 0x02 0x02 "SW2:2";
    PORT_DIPUNUSED_DIPLOC 0x04 0x04 "SW2:3";
    PORT_DIPNAME 0x08 0x08 (DEF_STR "Lives") "SW2:4";
    PORT_DIPSETTING 0x08 (STR "4");
    PORT_DIPSETTING 0x00 (STR "5");
    PORT_DIPUNUSED_DIPLOC 0x10 0x10 "SW2:5";
    PORT_DIPUNUSED_DIPLOC 0x20 0x20 "SW2:6";
    PORT_DIPNAME 0xc0 0x40 (DEF_STR "Bonus_Life") "SW2:7,8";
    PORT_DIPSETTING 0x40 (STR "30000");
    PORT_DIPSETTING 0x80 (STR "60000");
    PORT_DIPSETTING 0x00 (STR "90000");
    PORT_DIPSETTING 0xc0 (DEF_STR "None");
    PORT_START "DSW2";
    PORT_DIPUNUSED_DIPLOC 0x01 0x01 "SW3:1";
    PORT_DIPUNUSED_DIPLOC 0x02 0x02 "SW3:2";
    PORT_DIPUNUSED_DIPLOC 0x04 0x04 "SW3:3";
    PORT_DIPUNUSED_DIPLOC 0x08 0x08 "SW3:4";
    PORT_DIPUNUSED_DIPLOC 0x10 0x10 "SW3:5";
    PORT_DIPUNUSED_DIPLOC 0x20 0x20 "SW3:6";
    PORT_DIPUNUSED_DIPLOC 0x40 0x40 "SW3:7";
    PORT_DIPUNUSED_DIPLOC 0x80 0x80 "SW3:8";
    PORT_START "DSW3";
    PORT_DIPUNUSED_DIPLOC 0x01 0x01 "SW4:1";
    PORT_DIPUNUSED_DIPLOC 0x02 0x02 "SW4:2";
    PORT_DIPUNUSED_DIPLOC 0x04 0x04 "SW4:3";
    PORT_DIPUNUSED_DIPLOC 0x08 0x08 "SW4:4";
    PORT_DIPUNUSED_DIPLOC 0x10 0x10 "SW4:5";
    PORT_DIPUNUSED_DIPLOC 0x20 0x20 "SW4:6";
    PORT_DIPUNUSED_DIPLOC 0x40 0x40 "SW4:7";
    PORT_DIPUNUSED_DIPLOC 0x80 0x80 "SW4:8" ].

Definition input_ports_potogold : list port_directive :=
  [ PORT_INCLUDE input_ports_leprechn;
    PORT_MODIFY "DSW1";
    PORT_DIPNAME 0x08 0x08 (DEF_STR "Lives") "SW2:4";
    PORT_DIPSETTING 0x08 (STR "3");
    PORT_DIPSETTING 0x00 (STR "4") ].

Definition input_ports_piratetr : list port_directive :=
  [ PORT_START "IN0";
    PORT_BIT 0x01 IP_ACTIVE_LOW IPT_UNUSED [];
    PORT_BIT 0x02 IP_ACTIVE_LOW IPT_UNUSED [];
    PORT_BIT 0x04 IP_ACTIVE_LOW IPT_TILT [];
    PORT_BIT 0x08 IP_ACTIVE_LOW IPT_SERVICE [PORT_NAME "Do Tests"; PORT_CODE "KEYCODE_F1"];
    PORT_BIT 0x10 IP_ACTIVE_LOW IPT_SERVICE [PORT_NAME "Select Test"; PORT_CODE "KEYCODE_F2"];
    PORT_BIT 0x20 IP_ACTIVE_LOW IPT_UNUSED [];
    PORT_BIT 0x40 IP_ACTIVE_HIGH IPT_COIN2 [];
    PORT_BIT 0x80 IP_ACTIVE_HIGH IPT_COIN1 [];
    PORT_START "IN1";
    PORT_BIT 0x01 IP_ACTIVE_LOW IPT_UNUSED [];
    PORT_BIT 0x02 IP_ACTIVE_LOW IPT_UNUSED [];
    PORT_BIT 0x04 IP_ACTIVE_LOW IPT_UNUSED [];
    PORT_BIT 0x08 IP_ACTIVE_LOW IPT_UNUSED [];
    PORT_BIT 0x10 IP_ACTIVE_LOW IPT_UNUSED [];
    PORT_BIT 0x20 IP_ACTIVE_LOW IPT_START2 [];
    PORT_BIT 0x40 IP_ACTIVE_LOW IPT_UNUSED [];
    PORT_BIT 0x80 IP_ACTIVE_LOW IPT_START1 [];
    PORT_START "IN2";
    PORT_BIT 0x01 IP_ACTIVE_LOW IPT_UNUSED [];
    PORT_BIT 0x02 IP_ACTIVE_LOW IPT_UNUSED [];
    PORT_BIT 0x04 IP_ACTIVE_LOW IPT_UNUSED [];
    PORT_BIT 0x08 IP_ACTIVE_LOW IPT_UNUSED [];
    PORT_BIT 0x10 IP_ACTIVE_LOW IPT_JOYSTICK_LEFT [];
    PORT_BIT 0x20 IP_ACTIVE_LOW IPT_JOYSTICK_DOWN [];
    PORT_BIT 0x40 IP_ACTIVE_LOW IPT_JOYSTICK_RIGHT [];
    PORT_BIT 0x80 IP_ACTIVE_LOW IPT_JOYSTICK_UP [];
    PORT_START "IN3";
    PORT_BIT 0x01 IP_ACTIVE_LOW IPT_UNUSED [];
    PORT_BIT 0x02 IP_ACTIVE_LOW IPT_UNUSED [];
    PORT_BIT 0x04 IP_ACTIVE_LOW IPT_UNUSED [];
    PORT_BIT 0x08 IP_ACTIVE_LOW IPT_UNUSED [];
    PORT_BIT 0x10 IP_ACTIVE_LOW IPT_JOYSTICK_LEFT [PORT_COCKTAIL];
    PORT_BIT 0x20 IP_ACTIVE_LOW IPT_JOYSTICK_DOWN [PORT_COCKTAIL];
    PORT_BIT 0x40 IP_ACTIVE_LOW IPT_JOYSTICK_RIGHT [PORT_COCKTAIL];
    PORT_BIT 0x80 IP_ACTIVE_LOW IPT_JOYSTICK_UP [PORT_COCKTAIL];
    PORT_START "DSW0";
    PORT_DIPNAME 0x09 0x09 (DEF_STR "Coin_B") "SW1:1,4";
    PORT_DIPSETTING 0x09 (DEF_STR "1C_1C");
    PORT_DIPSETTING 0x01 (DEF_STR "1C_5C");
    PORT_DIPSETTING 0x08 (DEF_STR "1C_6C");
    PORT_DIPSETTING 0x00 (DEF_STR "1C_7C");
    PORT_DIPNAME 0x22 0x22 (STR "Max Credits") "SW1:2,6";
    PORT_DIPSETTING 0x22 (STR "10");
    PORT_DIPSETTING 0x20 (STR "20");
    PORT_DIPSETTING 0x02 (STR "30");
    PORT_DIPSETTING 0x00 (STR "40");
    PORT_DIPNAME 0x04 0x04 (DEF_STR "Cabinet") "SW1:3";
    PORT_DIPSETTING 0x04 (DEF_STR "Upright");
    PORT_DIPSETTING 0x00 (DEF_STR "Cocktail");
    PORT_DIPNAME 0x10 0x10 (DEF_STR "Free_Play") "SW1:5";
    PORT_DIPSETTING 0x10 (DEF_STR "Off");
    PORT_DIPSETTING 0x00 (DEF_STR "On");
    PORT_DIPNAME 0xc0 0xc0 (DEF_STR "Coin_A") "SW1:7,8";
    PORT_DIPSETTING 0xc0 (DEF_STR "1C_1C");
    PORT_DIPSETTING 0x40 (DEF_STR "1C_2C");
    PORT_DIPSETTING 0x80 (DEF_STR "1C_3C");
    PORT_DIPSETTING 0x00 (DEF_STR "1C_4C");
    PORT_START "DSW1";
    PORT_DIPNAME 0x01 0x00 (DEF_STR "Demo_Sounds") "SW2:1";
    PORT_DIPSETTING 0x01 (DEF_STR "Off");
    PORT_DIPSETTING 0x00 (DEF_STR "On");
    PORT_DIPNAME 0x02 0x02 (STR "Stringing Check") "SW2:2";
    PORT_DIPSETTING 0x02 (DEF_STR "Off");
    PORT_DIPSETTING 0x00 (DEF_STR "On");
    PORT_DIPUNUSED_DIPLOC 0x04 0x04 "SW2:3";
    PORT_DIPNAME 0x08 0x08 (DEF_STR "Lives") "SW2:4";
    PORT_DIPSETTING 0x08 (STR "3");
    PORT_DIPSETTING 0x00 (STR "4");
    PORT_DIPUNUSED_DIPLOC 0x10 0x10 "SW2:5";
    PORT_DIPUNUSED_DIPLOC 0x20 0x20 "SW2:6";
    PORT_DIPNAME 0xc0 0x40 (DEF_STR "Bonus_Life") "SW2:7,8";
    PORT_DIPSETTING 0x40 (STR "30000");
    PORT_DIPSETTING 0x80 (STR "60000");
    PORT_DIPSETTING 0x00 (STR "90000");
    PORT_DIPSETTING 0xc0 (DEF_STR "None");
    PORT_START "DSW2";
    PORT_DIPUNUSED_DIPLOC 0x01 0x01 "SW3:1";
    PORT_DIPUNUSED_DIPLOC 0x02 0x02 "SW3:2";
    PORT_DIPUNUSED_DIPLOC 0x04 0x04 "SW3:3";
    PORT_DIPUNUSED_DIPLOC 0x08 0x08 "SW3:4";
    PORT_DIPUNUSED_DIPLOC 0x10 0x10 "SW3:5";
    PORT_DIPUNUSED_DIPLOC 0x20 0x20 "SW3:6";
    PORT_DIPUNUSED_DIPLOC 0x40 0x40 "SW3:7";
    PORT_DIPUNUSED_DIPLOC 0x80 0x80 "SW3:8";
    PORT_START "DSW3";
    PORT_DIPUNUSED_DIPLOC 0x01 0x01 "SW4:1";
    PORT_DIPUNUSED_DIPLOC 0x02 0x02 "SW4:2";
    PORT_DIPUNUSED_DIPLOC 0x04 0x04 "SW4:3";
    PORT_DIPUNUSED_DIPLOC 0x08 0x08 "SW4:4";
    PORT_DIPUNUSED_DIPLOC 0x10 0x10 "SW4:5";
    PORT_DIPUNUSED_DIPLOC 0x20 0x20 "SW4:6";
    PORT_DIPUNUSED_DIPLOC 0x40 0x40 "SW4:7";
    PORT_DIPUNUSED_DIPLOC 0x80 0x80 "SW4:8" ].

(** *** ROM sets *)

Inductive rom_entry : Type :=
| ROM_REGION (length : Z) (tag : string) (flags : Z)
| ROM_LOAD (name : string) (offset length : Z) (crc : Z) (sha1 : string)
| ROM_CONTINUE (offset length : Z).

Definition rom_killcom : list rom_entry :=
  [ ROM_REGION 0x10000 "maincpu" 0;
    ROM_LOAD "killcom.e2" 0xc000 0x0800 0xa01cbb9a "a8769243adbdddedfda5f3c8f054e9281a0eca46";
    ROM_LOAD "killcom.f2" 0xc800 0x0800 0xbb3b4a93 "a0ea61ac30a4d191db619b7bfb697914e1500036";
    ROM_LOAD "killcom.g2" 0xd000 0x0800 0x86ec68b2 "a09238190d61684d943ce0acda25eb901d2580ac";
    ROM_LOAD "killcom.j2" 0xd800 0x0800 0x28d8c6a1 "d9003410a651221e608c0dd20d4c9c60c3b0febc";
    ROM_LOAD "killcom.j1" 0xe000 0x0800 0x33ef5ac5 "42f839ad295d3df457ced7886a0003eff7e6c4ae";
    ROM_LOAD "killcom.g1" 0xe800 0x0800 0x49cb13e2 "635e4665042ddd9b8c0b9f275d4bcc6830dc6a98";
    ROM_LOAD "killcom.f1" 0xf000 0x0800 0xef652762 "414714e5a3f83916bd3ae54afe2cb2271ee9008b";
    ROM_LOAD "killcom.e1" 0xf800 0x0800 0xbc19dcb7 "eb983d2df010c12cb3ffb584fceafa54a4e956b3";
    ROM_REGION 0x10000 "audiocpu" 0;
    ROM_LOAD "killsnd.e1" 0xe000 0x0800 0x77d4890d "a3ed7e11dec5d404f022c521256ff50aa6940d3c" ].

Definition rom_megatack : list rom_entry :=
  [ ROM_REGION 0x10000 "maincpu" 0;
    ROM_LOAD "megattac.e2" 0xc000 0x0800 0x33fa5104 "15693eb540563e03502b53ed8a83366e395ca529";
    ROM_LOAD "megattac.f2" 0xc800 0x0800 0xaf5e96b1 "5f6ab47c12d051f6af446b08f3cd459fbd2c13bf";
    ROM_LOAD "megattac.g2" 0xd000 0x0800 0x670103ea "e11f01e8843ed918c6ea5dda75319dc95105d345";
    ROM_LOAD "megattac.j2" 0xd800 0x0800 0x4573b798 "388db11ab114b3575fe26ed65bbf49174021939a";
    ROM_LOAD "megattac.j1" 0xe000 0x0800 0x3b1d01a1 "30bbf51885b1e510b8d21cdd82244a455c5dada0";
    ROM_LOAD "megattac.g1" 0xe800 0x0800 0xeed75ef4 "7c02337344f2716d2f2771229f7dee7b651eeb95";
    ROM_LOAD "megattac.f1" 0xf000 0x0800 0xc93a8ed4 "c87e2f13f2cc00055f4941c272a3126b165a6252";
    ROM_LOAD "megattac.e1" 0xf800 0x0800 0xd9996b9f "e71d65b695000fdfd5fd1ce9ae39c0cb0b61669e";
    ROM_REGION 0x10000 "audiocpu" 0;
    ROM_LOAD "megatsnd.e1" 0xe000 0x0800 0x0c186bdb "233af9481a3979971f2d5aa75ec8df4333aa5e0d" ].

Definition rom_megatacka : list rom_entry :=
  [ ROM_REGION 0x10000 "maincpu" 0;
    ROM_LOAD "meg-e2.bin" 0xc000 0x0800 0x9664c7b1 "356e7f5f3b2a9b829fac53e7bf9193278b4de2ed";
    ROM_LOAD "meg-f2.bin" 0xc800 0x0800 0x67c42523 "f9fc88cdea05a2d0e89e3ba9b545bf3476b37d2d";
    ROM_LOAD "meg-g2.bin" 0xd000 0x0800 0x71f36604 "043988126343b6224e8e1d6c0dbba6b6b08fe493";
    ROM_LOAD "meg-j2.bin" 0xd800 0x0800 0x4ddcc145 "3a6d42a58c388eaaf6561351fa98936d98975e0b";
    ROM_LOAD "meg-j1.bin" 0xe000 0x0800 0x911d5d9a "92bfe0f69a6e563363df59ebee745d7b3cfc0141";
    ROM_LOAD "meg-g1.bin" 0xe800 0x0800 0x22a51c9b "556e09216ed85eaf3870f85515c273c7eb1ab13a";
    ROM_LOAD "meg-f1.bin" 0xf000 0x0800 0x2ffa51ac "7c5d8295c5e71a9918a02d203139b024bd3bf8f4";
    ROM_LOAD "meg-e1.bin" 0xf800 0x0800 0x01dbe4ad "af72778ae112f24a92fb3007bb456331c3896b50";
    ROM_REGION 0x10000 "audiocpu" 0;
    ROM_LOAD "megatsnd.e1" 0xe000 0x0800 0x0c186bdb "233af9481a3979971f2d5aa75ec8df4333aa5e0d" ].

Definition rom_challeng : list rom_entry :=
  [ ROM_REGION 0x10000 "maincpu" 0;
    ROM_LOAD "chall.6" 0xa000 0x1000 0xb30fe7f5 "ce93a57d626f90d31ddedbc35135f70758949dfa";
    ROM_LOAD "chall.5" 0xb000 0x1000 0x34c6a88e "250577e2c8eb1d3a78cac679310ec38924ac1fe0";
    ROM_LOAD "chall.4" 0xc000 0x1000 0x0ddc18ef "9f1aa27c71d7e7533bddf7de420c06fb0058cf60";
    ROM_LOAD "chall.3" 0xd000 0x1000 0x6ce03312 "69c047f501f327f568fe4ad1274168f9dda1ca70";
    ROM_LOAD "chall.2" 0xe000 0x1000 0x948912ad "e79738ab94501f858f4d5f218787267523611e92";
    ROM_LOAD "chall.1" 0xf000 0x1000 0x7c71a9dc "2530ada6390fb46c44bf7bf2636910ee54786493";
    ROM_REGION 0x10000 "audiocpu" 0;
    ROM_LOAD "chall.snd" 0xe000 0x0800 0x1b2bffd2 "36ceb5abbc92a17576c375019f1c5900320398f9" ].

Definition rom_kaos : list rom_entry :=
  [ ROM_REGION 0x10000 "maincpu" 0;
    ROM_LOAD "kaosab.g2" 0x9000 0x0800 0xb23d858f "e31fa657ace34130211a0b9fc0d115fd89bb20dd";
    ROM_CONTINUE 0xd000 0x0800;
    ROM_LOAD "kaosab.j2" 0x9800 0x0800 0x4861e5dc "96ca0b8625af3897bd4a50a45ea964715f9e4973";
    ROM_CONTINUE 0xd800 0x0800;
    ROM_LOAD "kaosab.j1" 0xa000 0x0800 0xe055db3f "099176629723c1a9bdc59f440339b2e8c38c3261";
    ROM_CONTINUE 0xe000 0x0800;
    ROM_LOAD "kaosab.g1" 0xa800 0x0800 0x35d7c467 "6d5bfd29ff7b96fed4b24c899ddd380e47e52bc5";
    ROM_CONTINUE 0xe800 0x0800;
    ROM_LOAD "kaosab.f1" 0xb000 0x0800 0x995b9260 "580896aa8b6f0618dc532a12d0795b0d03f7cadd";
    ROM_CONTINUE 0xf000 0x0800;
    ROM_LOAD "kaosab.e1" 0xb800 0x0800 0x3da5202a "6b5aaf44377415763aa0895c64765a4b82086f25";
    ROM_CONTINUE 0xf800 0x0800;
    ROM_REGION 0x10000 "audiocpu" 0;
    ROM_LOAD "kaossnd.e1" 0xe000 0x0800 0xab23d52a "505f3e4a56e78a3913010f5484891f01c9831480" ].

Definition rom_leprechn : list rom_entry :=
  [ ROM_REGION 0x10000 "maincpu" 0;
    ROM_LOAD "lep1" 0x8000 0x1000 0x2c4a46ca "28a157c1514bc9f27cc27baddb83cf1a1887f3d1";
    ROM_LOAD "lep2" 0x9000 0x1000 0x6ed26b3e "4ee5d09200d9e8f94ae29751c8ee838faa268f15";
    ROM_LOAD "lep3" 0xa000 0x1000 0xa2eaa016 "be992ee787766137fd800ec59529c98ef2e6991e";
    ROM_LOAD "lep4" 0xb000 0x1000 0x6c12a065 "2acae6a5b94cbdcc550cee88a7be9254fdae908c";
    ROM_LOAD "lep5" 0xc000 0x1000 0x21ddb539 "b4dd0a1916adc076fa6084c315459fcb2522161e";
    ROM_LOAD "lep6" 0xd000 0x1000 0x03c34dce "6dff202e1a3d0643050f3287f6b5906613d56511";
    ROM_LOAD "lep7" 0xe000 0x1000 0x7e06d56d "5f68f2047969d803b752a4cd02e0e0af916c8358";
    ROM_LOAD "lep8" 0xf000 0x1000 0x097ede60 "5509c41167c066fa4e7f4f4bd1ce9cd00773a82c";
    ROM_REGION 0x10000 "audiocpu" 0;
    ROM_LOAD "lepsound" 0xe000 0x1000 0x6651e294 "ce2875fc4df61a30d51d3bf2153864b562601151" ].

Definition rom_potogold : list rom_entry :=
  [ ROM_REGION 0x10000 "maincpu" 0;
    ROM_LOAD "pog.pg1" 0x8000 0x1000 0x9f1dbda6 "baf20e9a0793c0f1529396f95a820bd1f9431465";
    ROM_LOAD "pog.pg2" 0x9000 0x1000 0xa70e3811 "7ee306dc7d75a7d3fd497870ec92bef9d86535e9";
    ROM_LOAD "pog.pg3" 0xa000 0x1000 0x81cfb516 "12732707e2a51ec39563f2d1e898cc567ab688f0";
    ROM_LOAD "pog.pg4" 0xb000 0x1000 0xd61b1f33 "da024c0776214b8b5a3e49401c4110e86a1bead1";
    ROM_LOAD "pog.pg5" 0xc000 0x1000 0xeee7597e "9b5cd293580c5d212f8bf39286070280d55e4cb3";
    ROM_LOAD "pog.pg6" 0xd000 0x1000 0x25e682bc "085d2d553ec10f2f830918df3a7fb8e8c1e5d18c";
    ROM_LOAD "pog.pg7" 0xe000 0x1000 0x84399f54 "c90ba3e3120adda2785ab5abd309e0a703d39f8b";
    ROM_LOAD "pog.pg8" 0xf000 0x1000 0x9e995a1a "5c525e6c161d9d7d646857b27cecfbf8e0943480";
    ROM_REGION 0x10000 "audiocpu" 0;
    ROM_LOAD "pog.snd" 0xe000 0x1000 0xec61f0a4 "26944ecc3e7413259928c8b0a74b2260e67d2c4e" ].

Definition rom_leprechp : list rom_entry :=
  [ ROM_REGION 0x10000 "maincpu" 0;
    ROM_LOAD "lep1" 0x8000 0x1000 0x2c4a46ca "28a157c1514bc9f27cc27baddb83cf1a1887f3d1";
    ROM_LOAD "lep2" 0x9000 0x1000 0x6ed26b3e "4ee5d09200d9e8f94ae29751c8ee838faa268f15";
    ROM_LOAD "3u15.bin" 0xa000 0x1000 0xb5f79fd8 "271f7b55ecda5bb99f40687264256b82649e2141";
    ROM_LOAD "lep4" 0xb000 0x1000 0x6c12a065 "2acae6a5b94cbdcc550cee88a7be9254fdae908c";
    ROM_LOAD "lep5" 0xc000 0x1000 0x21ddb539 "b4dd0a1916adc076fa6084c315459fcb2522161e";
    ROM_LOAD "lep6" 0xd000 0x1000 0x03c34dce "6dff202e1a3d0643050f3287f6b5906613d56511";
    ROM_LOAD "lep7" 0xe000 0x1000 0x7e06d56d "5f68f2047969d803b752a4cd02e0e0af916c8358";
    ROM_LOAD "lep8" 0xf000 0x1000 0x097ede60 "5509c41167c066fa4e7f4f4bd1ce9cd00773a82c";
    ROM_REGION 0x10000 "audiocpu" 0;
    ROM_LOAD "lepsound" 0xe000 0x1000 0x6651e294 "ce2875fc4df61a30d51d3bf2153864b562601151" ].

Definition rom_piratetr : list rom_entry :=
  [ ROM_REGION 0x10000 "maincpu" 0;
    ROM_LOAD "1u13.bin" 0x8000 0x1000 0x4433bb61 "eee0d7f356118f8595dd7533541db744a63a8176";
    ROM_LOAD "2u14.bin" 0x9000 0x1000 0x9bdc4b77 "ebaab8b3024efd3d0b76647085d441ca204ad5d5";
    ROM_LOAD "3u15.bin" 0xa000 0x1000 0xebced718 "3a2f4385347f14093360cfa595922254c9badf1a";
    ROM_LOAD "4u16.bin" 0xb000 0x1000 0xf494e657 "83a31849de8f4f70d7547199f229079f491ddc61";
    ROM_LOAD "5u17.bin" 0xc000 0x1000 0x2789d68e "af8f334ce4938cd75143b729c97cfbefd68c9e13";
    ROM_LOAD "6u18.bin" 0xd000 0x1000 0xd91abb3a "11170e69686c2a1f2dc31d41516f44b612f99bad";
    ROM_LOAD "7u19.bin" 0xe000 0x1000 0x6e8808c4 "d1f76fd37d8f78552a9d53467073cc9a571d96ce";
    ROM_LOAD "8u20.bin" 0xf000 0x1000 0x2802d626 "b0db688500076ee73e0001c00089a8d552c6f607";
    ROM_REGION 0x10000 "audiocpu" 0;
    ROM_LOAD "su31.bin" 0xe000 0x1000 0x2fe86a11 "aaafe411b9cb3d0221cc2af73d34ad8bb74f8327" ].

(** *** Machine configurations and game entries *)

(** The two machine configurations. [gameplan] gives the main CPU
    [gameplan_main_map] and the audio CPU [gameplan_audio_map];
    [leprechn] starts from [gameplan] and replaces the audio CPU's map by
    [leprechn_audio_map]. *)
Inductive machine_config : Type :=
| gameplan
| leprechn.

Definition main_program_map (c : machine_config) : list address_map.entry :=
  gameplan_main_map.

Definition audio_program_map (c : machine_config) : list address_map.entry :=
  match c with
  | gameplan => gameplan_audio_map
  | leprechn => leprechn_audio_map
  end.

(** The ports the machine configuration wires to the two I/O ports of the
    AY-3-8910. *)
Definition aysnd_ports : list string := ["DSW2"; "DSW3"]%string.

(** [GAME(YEAR, NAME, PARENT, MACHINE, INPUT, CLASS, INIT, MONITOR,
    COMPANY, FULLNAME, FLAGS)]; the macro takes the ROM set of the entry
    from its NAME, here the field [roms]. *)
Module game_driver.
Record t : Type := GAME {
  year : Z;
  name : string;
  parent : string;
  machine : machine_config;
  input : list port_directive;
  roms : list rom_entry;
  class : string;
  init : string;
  monitor : string;
  company : string;
  fullname : string;
  flags : string
}.
End game_driver.

Definition game_drivers : list game_driver.t :=
  [ game_driver.GAME 1980 "killcom" "0" gameplan input_ports_killcom rom_killcom
      "gameplan_state" "empty_init" "ROT0"
      "Game Plan (Centuri license)"
      "Killer Comet" "MACHINE_SUPPORTS_SAVE";
    game_driver.GAME 1980 "megatack" "0" gameplan input_ports_megatack rom_megatack
      "gameplan_state" "empty_init" "ROT0"
      "Game Plan (Centuri license)"
      "Megatack (set 1)" "MACHINE_SUPPORTS_SAVE";
    game_driver.GAME 1980 "megatacka" "megatack" gameplan input_ports_megatack rom_megatacka
      "gameplan_state" "empty_init" "ROT0"
      "Game Plan (Centuri license)"
      "Megatack (set 2)" "MACHINE_SUPPORTS_SAVE";
    game_driver.GAME 1981 "challeng" "0" gameplan input_ports_challeng rom_challeng
      "gameplan_state" "empty_init" "ROT0"
      "Game Plan (Centuri license)"
      "Challenger" "MACHINE_SUPPORTS_SAVE";
    game_driver.GAME 1981 "kaos" "0" gameplan input_ports_kaos rom_kaos
      "gameplan_state" "empty_init" "ROT270"
      "Game Plan"
      "Kaos" "MACHINE_SUPPORTS_SAVE";
    game_driver.GAME 1982 "leprechn" "0" leprechn input_ports_leprechn rom_leprechn
      "gameplan_state" "empty_init" "ROT0"
      "Tong Electronic"
      "Leprechaun" "MACHINE_SUPPORTS_SAVE";
    game_driver.GAME 1982 "potogold" "leprechn" leprechn input_ports_potogold rom_potogold
      "gameplan_state" "empty_init" "ROT0"
      "Tong Electronic (Game Plan license)"
      "Pot of Gold" "MACHINE_SUPPORTS_SAVE";
    game_driver.GAME 1982 "leprechp" "leprechn" leprechn input_ports_potogold rom_leprechp
      "gameplan_state" "empty_init" "ROT0"
      "Tong Electronic (Pacific Polytechnical license)"
      "Leprechaun (Pacific)" "MACHINE_SUPPORTS_SAVE";
    game_driver.GAME 1982 "piratetr" "0" leprechn input_ports_piratetr rom_piratetr
      "gameplan_state" "empty_init" "ROT0"
      "Tong Electronic"
      "Pirate Treasure" "MACHINE_SUPPORTS_SAVE" ].

(** *** Reading the tables *)

(** The directives of a block with every [PORT_INCLUDE] replaced by the
    directives of the included block. *)
Fixpoint expand_directive (d : port_directive) : list port_directive :=
  match d with
  | PORT_INCLUDE ports =>
      (fix expand_all (l : list port_directive) : list port_directive :=
         match l with
         | [] => []
         | x :: rest => expand_directive x ++ expand_all rest
         end) ports
  | _ => [d]
  end.

Definition expand (ds : list port_directive) : list port_directive :=
  flat_map expand_directive ds.

(** The tags of the ports a block creates. *)
Definition port_tags (ds : list port_directive) : list string :=
  flat_map (λ d, match d with PORT_START tag => [tag] | _ => [] end)
           (expand ds).

(** The directives of one port: those up to the next [PORT_START] or
    [PORT_MODIFY]. *)
Fixpoint fields_of (ds : list port_directive) : list port_directive :=
  match ds with
  | [] => []
  | PORT_START _ :: _ | PORT_MODIFY _ :: _ => []
  | d :: rest => d :: fields_of rest
  end.

(** The ports a block starts, each with its directives. *)
Fixpoint started_ports (ds : list port_directive)
  : list (string * list port_directive) :=
  match ds with
  | [] => []
  | PORT_START tag :: rest => (tag, fields_of rest) :: started_ports rest
  | _ :: rest => started_ports rest
  end.

(** The bits a directive defines, for the directives that define bits. *)
Definition field_mask (d : port_directive) : option Z :=
  match d with
  | PORT_BIT mask _ _ _ => Some mask
  | PORT_DIPNAME mask _ _ _ => Some mask
  | PORT_DIPUNUSED_DIPLOC mask _ _ => Some mask
  | _ => None
  end.

Definition field_masks (ds : list port_directive) : list Z :=
  omap field_mask ds.

(** The values of the [PORT_DIPSETTING] lines at the head of a list. *)
Fixpoint settings_of (ds : list port_directive) : list Z :=
  match ds with
  | PORT_DIPSETTING value _ :: rest => value :: settings_of rest
  | _ => []
  end.

(** The switches a block names with [PORT_DIPNAME]: mask, default and the
    values of the settings that follow. *)
Fixpoint dip_switches (ds : list port_directive) : list (Z * Z * list Z) :=
  match ds with
  | [] => []
  | PORT_DIPNAME mask default _ _ :: rest =>
      (mask, default, settings_of rest) :: dip_switches rest
  | _ :: rest => dip_switches rest
  end.

(** The input-port blocks of the file. *)
Definition input_port_blocks : list (list port_directive) :=
  [ input_ports_killcom; input_ports_megatack; input_ports_challeng;
    input_ports_kaos; input_ports_leprechn; input_ports_potogold;
    input_ports_piratetr ].

(** The chunks (offset, length) loaded into the region [tag]: the
    [ROM_LOAD] and [ROM_CONTINUE] lines between its [ROM_REGION] and the
    next one. [cur] is the region being filled. *)
Fixpoint region_chunks_from (cur : option string) (tag : string)
    (entries : list rom_entry) : list (Z * Z) :=
  match entries with
  | [] => []
  | ROM_REGION _ t _ :: rest => region_chunks_from (Some t) tag rest
  | ROM_LOAD _ offset length _ _ :: rest
  | ROM_CONTINUE offset length :: rest =>
      (if decide (cur = Some tag) then [(offset, length)] else [])
      ++ region_chunks_from cur tag rest
  end.

Definition region_chunks (tag : string) (entries : list rom_entry)
  : list (Z * Z) :=
  region_chunks_from None tag entries.

(** The length given to the region [tag]. *)
Definition region_length (tag : string) (entries : list rom_entry)
  : option Z :=
  head (omap (λ e, match e with
                   | ROM_REGION length t _ =>
                       if decide (t = tag) then Some length else None
                   | _ => None
                   end) entries).

Definition chunk_holds (a : Z) (c : Z * Z) : bool :=
  (c.1 <=? a) && (a <? c.1 + c.2).

(** The chunks of a region that hold the address [a]. *)
Definition loaded_at (tag : string) (entries : list rom_entry) (a : Z)
  : list (Z * Z) :=
  filter (chunk_holds a) (region_chunks tag entries).

(** Every bit 0-7 is defined by exactly one of the masks, and no mask
    has a bit above bit 7. *)
Definition each_bit_once (masks : list Z) : Prop :=
  Forall (λ m, 0 ≤ m < 256) masks
  ∧ Forall (λ n, length (filter (λ m, Z.testbit m n) masks) = 1%nat)
           (seqZ 0 8).

(** The positions of a switch: the values with no bit outside its mask. *)
Definition dip_positions (mask : Z) : list Z :=
  filter (λ v, Z.land v mask = v) (seqZ 0 256).

(** An entry of an address map with the offset of [a] inside it. *)
Definition target_at (a : Z) (e : address_map.entry)
  : address_map.handler * Z :=
  (address_map.target e, address_map.offset a e).

(** Two chunks that share no address, and a list of chunks that are so
    two by two. *)
Definition chunks_apart (c c' : Z * Z) : bool :=
  (c.1 + c.2 <=? c'.1) || (c'.1 + c'.2 <=? c.1).

Fixpoint pairwise_apart (chunks : list (Z * Z)) : bool :=
  match chunks with
  | [] => true
  | c :: rest => forallb (chunks_apart c) rest && pairwise_apart rest
  end.

(** ** The handlers *)

Section Driver.

(** Line-state and line-number constants of the emulator core
    (declared outside this driver). *)
Variables CLEAR_LINE ASSERT_LINE INPUT_LINE_RESET : Z.

(** The machine's input ports: tag to the value [read()] gives. *)
Variable ioports : gmap string Z.

(** *** VIA 2 - I/O *)

Definition io_select_w (data : Z) : M unit :=
  match data with
  | 0x01 => modify (with_current_port 0)
  | 0x02 => modify (with_current_port 1)
  | 0x04 => modify (with_current_port 2)
  | 0x08 => modify (with_current_port 3)
  | 0x80 => modify (with_current_port 4)
  | 0x40 => modify (with_current_port 5)
  | _ => mret tt
  end.

Definition portnames : list string :=
  ["IN0"; "IN1"; "IN2"; "IN3"; "DSW0"; "DSW1"]%string.

(** [None] stands for the undefined behaviour of an index outside
    [portnames] or of a tag the machine has no port for. *)
Definition io_port_r : M (option Z) :=
  s ← get;
  mret (tag ← array_at portnames (m_current_port s);
        uint8 <$> ioports !! tag).

Definition coin_w (state : Z) : M unit :=
  emit (bookkeeping_coin_counter_w 0 (Z.land (Z.lnot state) 1)).

(** *** VIA 3 - audio *)

Definition audio_reset_w (state : Z) : M unit :=
  emit (audiocpu_set_input_line INPUT_LINE_RESET
          (if truthy state then CLEAR_LINE else ASSERT_LINE));;
  when (state =? 0)
    (emit riot_reset;;
     emit (scheduler_boost_interleave attotime.zero (attotime.from_usec 10))).

Definition audio_cmd_w (data : Z) : M unit :=
  emit (riot_porta_in_set data 0x7f).

Definition audio_trigger_w (state : Z) : M unit :=
  emit (riot_porta_in_set (uint8 (Z.shiftl state 7)) 0x80).

(** *** RIOT - audio *)

Definition r6532_irq (state : Z) : M unit :=
  emit (audiocpu_set_input_line 0 state);;
  when (state =? ASSERT_LINE)
    (emit (scheduler_boost_interleave attotime.zero (attotime.from_usec 10))).

(** *** Machine drivers *)

Definition machine_start : M unit :=
  emit (save_item "m_current_port");;
  emit (save_item "m_video_x");;
  emit (save_item "m_video_y");;
  emit (save_item "m_video_command");;
  emit (save_item "m_video_data");;
  emit (save_item "m_video_previous").

Definition machine_reset : M unit :=
  modify (λ _, {| m_current_port := 0;
                  m_video_x := 0;
                  m_video_y := 0;
                  m_video_command := 0;
                  m_video_data := 0;
                  m_video_previous := 0 |}).

(** *** The handlers as one instruction set *)

Inductive op : Type :=
| op_io_select_w (data : Z)
| op_io_port_r
| op_coin_w (state : Z)
| op_audio_reset_w (state : Z)
| op_audio_cmd_w (data : Z)
| op_audio_trigger_w (state : Z)
| op_r6532_irq (state : Z)
| op_machine_start
| op_machine_reset.

Definition exec (o : op) : M unit :=
  match o with
  | op_io_select_w data => io_select_w data
  | op_io_port_r => io_port_r;; mret tt
  | op_coin_w state => coin_w state
  | op_audio_reset_w state => audio_reset_w state
  | op_audio_cmd_w data => audio_cmd_w data
  | op_audio_trigger_w state => audio_trigger_w state
  | op_r6532_irq state => r6532_irq state
  | op_machine_start => machine_start
  | op_machine_reset => machine_reset
  end.

Fixpoint run (ops : list op) : M unit :=
  match ops with
  | [] => mret tt
  | o :: rest => exec o;; run rest
  end.

(** *** What a log of calls does to the collaborators *)

(** Modelled from the spec: [reset()] of the RIOT, missing from the
    driver file, puts the device in its power-on state, whatever that
    state is. *)
Variable riot_power_on : riot6532.t.

Definition riot_step (r : riot6532.t) (c : call) : riot6532.t :=
  match c with
  | riot_reset => riot_power_on
  | riot_porta_in_set data mask => riot6532.porta_in_set data mask r
  | _ => r
  end.

Definition riot_after (log : list call) (r : riot6532.t) : riot6532.t :=
  fold_left riot_step log r.

Definition bookkeeping_step (b : bookkeeping.t) (c : call) : bookkeeping.t :=
  match c with
  | bookkeeping_coin_counter_w num on => bookkeeping.coin_counter_w num on b
  | _ => b
  end.

Definition bookkeeping_after (log : list call) (b : bookkeeping.t)
  : bookkeeping.t :=
  fold_left bookkeeping_step log b.

(** *** Vocabulary of the statements *)

(** Number of high-to-low transitions of a line that was at [prev] and
    then takes the levels of [levels] in turn. *)
Fixpoint falling_edges (prev : Z) (levels : list Z) : Z :=
  match levels with
  | [] => 0
  | l :: rest =>
      (if (prev =? 1) && (l =? 0) then 1 else 0) + falling_edges l rest
  end.

(** The select codes and the group index each one stands for. *)
Definition select_codes : list (Z * Z) :=
  [(0x01, 0); (0x02, 1); (0x04, 2); (0x08, 3); (0x80, 4); (0x40, 5)].

(** The value the machine supplies for the input group of index [idx]. *)
Definition input_group (idx : Z) : option Z :=
  tag ← array_at portnames idx; ioports !! tag.

Definition port_in_range (s : gameplan_state) : Prop :=
  0 ≤ m_current_port s ≤ 5.

(** The reset sequence with the RIOT reset and the boost placed on the
    release of the reset input, and nothing but the assertion on the
    other edge: whenever the handler clears the reset input it goes on
    to reset the RIOT and to ask for a boost of zero delay and some tens
    of microseconds, and whenever it asserts the reset input it does
    nothing else. *)
Definition reset_sequence_on_release : Prop :=
  ∀ (state : Z) (s : gameplan_state),
    (audiocpu_set_input_line INPUT_LINE_RESET CLEAR_LINE
       ∈ calls (audio_reset_w state s) →
     ∃ d, 10 ≤ attotime.as_usec d < 100
          ∧ calls (audio_reset_w state s)
            = [audiocpu_set_input_line INPUT_LINE_RESET CLEAR_LINE;
               riot_reset;
               scheduler_boost_interleave attotime.zero d])
    ∧ (audiocpu_set_input_line INPUT_LINE_RESET ASSERT_LINE
         ∈ calls (audio_reset_w state s) →
       calls (audio_reset_w state s)
       = [audiocpu_set_input_line INPUT_LINE_RESET ASSERT_LINE]).

(** *** Classes of handlers *)

(** The handlers that write the current port: a select carrying one of
    the six codes, and the machine reset. *)
Definition writes_port (o : op) : bool :=
  match o with
  | op_io_select_w data =>
      bool_decide (data ∈ [0x01; 0x02; 0x04; 0x08; 0x80; 0x40])
  | op_machine_reset => true
  | _ => false
  end.

(** The handlers that ask the scheduler for an interleave boost. *)
Definition boosts (o : op) : bool :=
  match o with
  | op_audio_reset_w state => state =? 0
  | op_r6532_irq state => state =? ASSERT_LINE
  | _ => false
  end.

(** The handlers that call the RIOT. *)
Definition acts_on_riot (o : op) : bool :=
  match o with
  | op_audio_cmd_w _ | op_audio_trigger_w _ => true
  | op_audio_reset_w state => state =? 0
  | _ => false
  end.

(** The coin line going to an even level (low, for a line level). *)
Definition coin_low (o : op) : bool :=
  match o with
  | op_coin_w state => Z.even state
  | _ => false
  end.

Definition video_fields (s : gameplan_state) : Z * Z * Z * Z * Z :=
  (m_video_x s, m_video_y s, m_video_command s, m_video_data s,
   m_video_previous s).

(** What the driver may put on an input line of the audio CPU: anything
    on line 0, one of the two line states on the reset line. *)
Definition line_call_ok (c : call) : Prop :=
  match c with
  | audiocpu_set_input_line linenum state =>
      linenum = 0
      ∨ (linenum = INPUT_LINE_RESET
         ∧ (state = CLEAR_LINE ∨ state = ASSERT_LINE))
  | _ => True
  end.

(** ** Port multiplexer *)

Lemma io_select_w_calls (data : Z) (s : gameplan_state) :
  calls (io_select_w data s) = [].
Proof.
  unfold io_select_w.
  destruct data as [|p|p]; try reflexivity.
  do 8 (try (destruct p as [p|p|]; try reflexivity)).
Qed.

Lemma io_select_w_port (data : Z) (s : gameplan_state) :
  m_current_port (state_of (io_select_w data s)) = m_current_port s
  ∨ (data, m_current_port (state_of (io_select_w data s))) ∈ select_codes.
Proof.
  unfold io_select_w, select_codes.
  destruct data as [|p|p]; try (left; reflexivity).
  do 8 (try (destruct p as [p|p|]; try (left; reflexivity)));
    right; cbn; set_solver.
Qed.

Lemma io_port_r_value (s : gameplan_state) :
  value (io_port_r s) = uint8 <$> input_group (m_current_port s).
Proof.
  unfold io_port_r, input_group, value, get, mbind at 1, M_bind, mret, M_ret.
  cbn beta iota zeta delta [fst snd].
  destruct (array_at portnames (m_current_port s)); reflexivity.
Qed.

Lemma io_port_r_pure (s : gameplan_state) :
  state_of (io_port_r s) = s ∧ calls (io_port_r s) = [].
Proof. by split. Qed.

(** C2. For each of the six select codes, [io_select_w] sets the current
    port to the mapped index whatever it was before, and the following
    [io_port_r] returns the 8-bit value the machine supplies for the
    input group of that index. *)
Theorem io_select_w_then_io_port_r
    (code idx v : Z) (s : gameplan_state) :
  (code, idx) ∈ select_codes →
  input_group idx = Some v →
  0 ≤ v < 256 →
  m_current_port (state_of (io_select_w code s)) = idx
  ∧ value (io_port_r (state_of (io_select_w code s))) = Some v.
Proof.
  intros Hin Hgrp Hv.
  assert (Hbyte : uint8 v = v).
  { unfold uint8. change 0xff with (Z.ones 8).
    rewrite Z.land_ones by lia. apply Z.mod_small. lia. }
  unfold select_codes in Hin. set_unfold in Hin.
  destruct_or!; simplify_eq; (split; [reflexivity|]);
    rewrite io_port_r_value; simpl (m_current_port _);
    rewrite Hgrp; cbn; by rewrite Hbyte.
Qed.

(** C5. A select code outside the six valid ones changes nothing: the
    driver fields are as before, no collaborator is called, and
    [io_port_r] gives what it gave before the write. *)
Theorem io_select_w_invalid_noop (data : Z) (s : gameplan_state) :
  data ∉ [0x01; 0x02; 0x04; 0x08; 0x80; 0x40] →
  io_select_w data s = (tt, s, [])
  ∧ value (io_port_r (state_of (io_select_w data s))) = value (io_port_r s).
Proof.
  intros Hnot.
  assert (Hnoop : io_select_w data s = (tt, s, [])).
  { unfold io_select_w.
    destruct data as [|p|p]; try reflexivity.
    do 8 (try (destruct p as [p|p|]; try reflexivity));
      exfalso; apply Hnot; set_solver. }
  split; [exact Hnoop|]. by rewrite Hnoop.
Qed.

(** ** Machine start and reset *)

(** C8. [machine_reset] sets the current port to 0, so that a read with
    no selection since reset reads input group 0, and [machine_start]
    registers [m_current_port] for save states together with the five
    video fields that [machine_reset] reinitialises. *)
Theorem machine_reset_and_start (s : gameplan_state) :
  m_current_port (state_of (machine_reset s)) = 0
  ∧ value (io_port_r (state_of (machine_reset s))) = uint8 <$> input_group 0
  ∧ save_item "m_current_port" ∈ calls (machine_start s)
  ∧ calls (machine_start s)
    = save_item <$> ["m_current_port"; "m_video_x"; "m_video_y";
                     "m_video_command"; "m_video_data";
                     "m_video_previous"]%string
  ∧ state_of (machine_start s) = s.
Proof.
  split; [reflexivity|]. split; [apply io_port_r_value|].
  split; [cbn; set_solver|]. by split.
Qed.

(** ** The port index stays inside the port-name table *)

Lemma exec_port_in_range (o : op) (s : gameplan_state) :
  port_in_range s → port_in_range (state_of (exec o s)).
Proof.
  unfold port_in_range. intros Hs.
  destruct o as [data| |st|st|data|st|st| |]; cbn.
  - destruct (io_select_w_port data s) as [->|Hin]; [exact Hs|].
    unfold select_codes in Hin.
    set (q := m_current_port _) in *. clearbody q.
    set_unfold. intuition (simplify_eq; lia).
  - exact Hs.
  - exact Hs.
  - unfold audio_reset_w, when. destruct (st =? 0); exact Hs.
  - exact Hs.
  - exact Hs.
  - unfold r6532_irq, when. destruct (st =? ASSERT_LINE); exact Hs.
  - exact Hs.
  - lia.
Qed.

Lemma run_port_in_range (ops : list op) (s : gameplan_state) :
  port_in_range s → port_in_range (state_of (run ops s)).
Proof.
  revert s. induction ops as [|o rest IH]; intros s Hs; [exact Hs|].
  specialize (IH _ (exec_port_in_range o s Hs)).
  cbn [run]. unfold mbind, M_bind, state_of in *.
  destruct (exec o s) as [[[] s1] t1]. cbn in IH |- *.
  destruct (run rest s1) as [[[] s2] t2]. exact IH.
Qed.

Lemma run_after_machine_reset (ops : list op) (s : gameplan_state) :
  state_of (run (op_machine_reset :: ops) s)
  = state_of (run ops (state_of (machine_reset s))).
Proof.
  cbn [run exec]. unfold mbind, M_bind, state_of. cbn.
  by destruct (run ops _) as [[[] s2] t2].
Qed.

(** C9. After [machine_reset], whatever handlers run afterwards, the
    current port is between 0 and 5 and the look-up in the six-entry
    port-name table made by [io_port_r] is inside the table. *)
Theorem current_port_in_bounds (ops : list op) (s : gameplan_state) :
  port_in_range (state_of (run (op_machine_reset :: ops) s))
  ∧ is_Some (array_at portnames
               (m_current_port (state_of (run (op_machine_reset :: ops) s)))).
Proof.
  assert (Hr : port_in_range (state_of (run (op_machine_reset :: ops) s))).
  { rewrite run_after_machine_reset. apply run_port_in_range.
    unfold port_in_range. cbn. lia. }
  split; [exact Hr|].
  unfold port_in_range in Hr.
  set (q := m_current_port _) in *. clearbody q.
  assert (Hq : q = 0 ∨ q = 1 ∨ q = 2 ∨ q = 3 ∨ q = 4 ∨ q = 5) by lia.
  destruct Hq as [->|[->|[->|[->|[->| ->]]]]]; cbn; eauto.
Qed.

(** ** Coin line *)

Lemma run_cons_calls (o : op) (rest : list op) (s : gameplan_state) :
  calls (run (o :: rest) s)
  = calls (exec o s) ++ calls (run rest (state_of (exec o s))).
Proof.
  cbn [run]. unfold mbind, M_bind, calls, state_of.
  destruct (exec o s) as [[[] s1] t1]. cbn.
  by destruct (run rest s1) as [[[] s2] t2].
Qed.

Lemma inverted_level (state : Z) :
  is_level state →
  (Z.land (Z.lnot state) 1 = 1 ↔ state = 0)
  ∧ (Z.land (Z.lnot state) 1 = 0 ↔ state = 1).
Proof. intros [->| ->]; eval_land; lia. Qed.

Lemma coin_counter_w_edge (prev l : Z) (b : bookkeeping.t) :
  is_level prev → is_level l →
  bookkeeping.lastcoin b 0 = Z.land (Z.lnot prev) 1 →
  let b' := bookkeeping.coin_counter_w 0 (Z.land (Z.lnot l) 1) b in
  bookkeeping.coin_count b' 0
  = bookkeeping.coin_count b 0
    + (if (prev =? 1) && (l =? 0) then 1 else 0)
  ∧ bookkeeping.lastcoin b' 0 = Z.land (Z.lnot l) 1.
Proof.
  intros [->| ->] [->| ->] Hlast; cbn -[Z.add Z.land Z.lnot];
    rewrite Hlast; eval_land; cbn -[Z.add];
    rewrite ?fn_lookup_insert; split; (lia || reflexivity).
Qed.

(** C6. [coin_w] hands bit 0 of the inverted line level to the coin
    counter of channel 0: the counter is given an active level exactly
    when the line is low, and over any sequence of line levels the count
    of channel 0 goes up by one for each high-to-low transition of the
    line. *)
Theorem coin_w_counts_falling_edges
    (prev : Z) (levels : list Z) (s : gameplan_state) (b : bookkeeping.t) :
  is_level prev →
  Forall is_level levels →
  bookkeeping.lastcoin b 0 = Z.land (Z.lnot prev) 1 →
  (∀ state, coin_w state s
            = (tt, s, [bookkeeping_coin_counter_w 0 (Z.land (Z.lnot state) 1)]))
  ∧ Forall (λ l, Z.land (Z.lnot l) 1 = 1 ↔ l = 0) levels
  ∧ bookkeeping.coin_count
      (bookkeeping_after (calls (run (op_coin_w <$> levels) s)) b) 0
    = bookkeeping.coin_count b 0 + falling_edges prev levels.
Proof.
  intros Hprev Hlevels Hlast.
  split; [reflexivity|]. split.
  { eapply List.Forall_impl; [|exact Hlevels].
    intros l Hl. apply (inverted_level l Hl). }
  revert prev b Hprev Hlast.
  induction Hlevels as [|l rest Hl Hrest IH]; intros prev b Hprev Hlast.
  { cbn. lia. }
  rewrite fmap_cons, run_cons_calls.
  unfold bookkeeping_after. rewrite fold_left_app.
  change (state_of (exec (op_coin_w l) s)) with s.
  change (calls (exec (op_coin_w l) s))
    with [bookkeeping_coin_counter_w 0 (Z.land (Z.lnot l) 1)].
  cbn [fold_left bookkeeping_step].
  destruct (coin_counter_w_edge prev l b Hprev Hl Hlast) as [Hcount Hlast'].
  specialize (IH l _ Hl Hlast'). unfold bookkeeping_after in IH.
  rewrite IH, Hcount. cbn [falling_edges]. lia.
Qed.

(** ** Audio CPU reset line *)

(** C1, as the code has it. At level 0 [audio_reset_w] asserts the reset
    input of the audio CPU, then resets the RIOT to its power-on state,
    then asks for an interleave boost with zero initial delay and a
    duration of 10 microseconds, in this order; at any other level it
    only clears the reset input. The driver fields are untouched. *)
Theorem audio_reset_w_sequence
    (state : Z) (s : gameplan_state) (r : riot6532.t) :
  audio_reset_w state s
  = (tt, s,
     if state =? 0
     then [audiocpu_set_input_line INPUT_LINE_RESET ASSERT_LINE;
           riot_reset;
           scheduler_boost_interleave attotime.zero (attotime.from_usec 10)]
     else [audiocpu_set_input_line INPUT_LINE_RESET CLEAR_LINE])
  ∧ riot_after (calls (audio_reset_w state s)) r
    = (if state =? 0 then riot_power_on else r)
  ∧ attotime.as_usec attotime.zero = 0
  ∧ 10 ≤ attotime.as_usec (attotime.from_usec 10) < 100.
Proof.
  unfold audio_reset_w, truthy, when.
  destruct (state =? 0); cbn; repeat split; lia.
Qed.

(** C10. At every nonzero level [audio_reset_w] only clears the reset
    input of the audio CPU: it makes no call on the RIOT, whose state
    stays as it was, asks for no interleave boost, and leaves the driver
    fields alone. *)
Theorem audio_reset_w_nonzero
    (state : Z) (s : gameplan_state) (r : riot6532.t) :
  state ≠ 0 →
  audio_reset_w state s
  = (tt, s, [audiocpu_set_input_line INPUT_LINE_RESET CLEAR_LINE])
  ∧ filter is_riot_call (calls (audio_reset_w state s)) = []
  ∧ riot_after (calls (audio_reset_w state s)) r = r
  ∧ filter is_boost (calls (audio_reset_w state s)) = [].
Proof.
  intros Hne. apply Z.eqb_neq in Hne.
  unfold audio_reset_w, truthy, when. rewrite Hne. by cbn.
Qed.

(** ** RIOT interrupt line *)

(** C7. [r6532_irq] first forwards its level, as it is, to input line 0
    of the audio CPU, for every level; an interleave boost follows
    exactly when the level is [ASSERT_LINE], hence never when the
    interrupt is cleared. *)
Theorem r6532_irq_forwards_and_boosts (state : Z) (s : gameplan_state) :
  ASSERT_LINE ≠ CLEAR_LINE →
  r6532_irq state s
  = (tt, s,
     audiocpu_set_input_line 0 state
     :: (if state =? ASSERT_LINE
         then [scheduler_boost_interleave
                 attotime.zero (attotime.from_usec 10)]
         else []))
  ∧ head (calls (r6532_irq state s)) = Some (audiocpu_set_input_line 0 state)
  ∧ (filter is_boost (calls (r6532_irq state s)) ≠ [] ↔ state = ASSERT_LINE)
  ∧ (state = CLEAR_LINE → filter is_boost (calls (r6532_irq state s)) = []).
Proof.
  intros Hlines.
  unfold r6532_irq, when.
  destruct (Z.eqb_spec state ASSERT_LINE) as [->|Hne]; cbn.
  - by repeat split.
  - by repeat split.
Qed.

(** ** Command latch *)

Lemma testbit_byte_high (k n : Z) :
  0 ≤ k < 256 → 8 ≤ n → Z.testbit k n = false.
Proof.
  intros Hk Hn. destruct (decide (k = 0)) as [->|Hk0].
  - apply Z.bits_0.
  - apply Z.bits_above_log2; [lia|].
    assert (Z.log2 k < 8); [|lia].
    apply Z.log2_lt_pow2; lia.
Qed.

(** Bit-by-bit equality of two bytes built from [Z.land], [Z.lor] and
    [Z.lnot] over variables and the literals 0x7f, 0x80 and 0xff. *)
Ltac forget_bits :=
  repeat match goal with
         | |- context [Z.testbit ?x ?n] =>
             is_var x; generalize (Z.testbit x n); intro
         end.

Ltac byte_bits :=
  apply Z.bits_inj'; intros n Hn;
  repeat first [ rewrite Z.land_spec | rewrite Z.lor_spec
               | rewrite Z.lnot_spec by exact Hn ];
  destruct (Z_lt_ge_dec n 8) as [Hlt|Hge];
  [ assert (Hcases : n = 0 ∨ n = 1 ∨ n = 2 ∨ n = 3
                     ∨ n = 4 ∨ n = 5 ∨ n = 6 ∨ n = 7) by lia;
    destruct_or!; subst n; forget_bits;
    repeat match goal with b : bool |- _ => destruct b end; reflexivity
  | rewrite ?(testbit_byte_high 0xff n), ?(testbit_byte_high 0x7f n),
      ?(testbit_byte_high 0x80 n) by lia;
    forget_bits;
    repeat match goal with b : bool |- _ => destruct b end; reflexivity ].

Lemma masked_write_0x7f (old data : Z) :
  uint8 (Z.lor (Z.land old (Z.lnot 0x7f)) (Z.land data 0x7f))
  = Z.lor (Z.land old 0x80) (Z.land data 0x7f).
Proof. unfold uint8. byte_bits. Qed.

Lemma masked_write_0x80 (old data : Z) :
  uint8 (Z.lor (Z.land old (Z.lnot 0x80)) (Z.land data 0x80))
  = Z.lor (Z.land old 0x7f) (Z.land data 0x80).
Proof. unfold uint8. byte_bits. Qed.

Lemma masked_writes_commute (old c d : Z) :
  uint8 (Z.lor
           (Z.land (uint8 (Z.lor (Z.land old (Z.lnot 0x7f)) (Z.land c 0x7f)))
                   (Z.lnot 0x80))
           (Z.land d 0x80))
  = uint8 (Z.lor
             (Z.land (uint8 (Z.lor (Z.land old (Z.lnot 0x80)) (Z.land d 0x80)))
                     (Z.lnot 0x7f))
             (Z.land c 0x7f)).
Proof. unfold uint8. byte_bits. Qed.

(** C3. The command write replaces bits 0-6 of the port-A latch of the
    RIOT and keeps bit 7; the trigger write, for a line level [v],
    replaces bit 7 and keeps bits 0-6. *)
Theorem audio_latch_masked_writes
    (c v : Z) (s : gameplan_state) (r : riot6532.t) :
  is_level v →
  riot6532.port_a_in (riot_after (calls (audio_cmd_w c s)) r)
  = Z.lor (Z.land (riot6532.port_a_in r) 0x80) (Z.land c 0x7f)
  ∧ riot6532.port_a_in (riot_after (calls (audio_trigger_w v s)) r)
    = Z.lor (Z.land (riot6532.port_a_in r) 0x7f) (Z.shiftl v 7).
Proof.
  intros Hv. split.
  - apply masked_write_0x7f.
  - cbn [audio_trigger_w emit calls snd riot_after fold_left riot_step
           riot6532.porta_in_set riot6532.port_a_in].
    rewrite masked_write_0x80.
    by destruct Hv as [->| ->].
Qed.

(** C4. The command write and the trigger write commute: in either
    order they leave the same byte in the port-A latch, for every
    starting latch, command byte and trigger level. *)
Theorem audio_latch_writes_commute
    (c v : Z) (s : gameplan_state) (r : riot6532.t) :
  riot_after (calls ((audio_cmd_w c;; audio_trigger_w v) s)) r
  = riot_after (calls ((audio_trigger_w v;; audio_cmd_w c) s)) r.
Proof.
  cbn [calls snd riot_after fold_left riot_step].
  unfold riot_after, calls, audio_cmd_w, audio_trigger_w, emit, mbind, M_bind.
  cbn [snd app fold_left riot_step riot6532.porta_in_set riot6532.port_a_in].
  apply (f_equal riot6532.mk), masked_writes_commute.
Qed.

(** ** Sequences of handlers *)

Lemma run_cons_state (o : op) (rest : list op) (s : gameplan_state) :
  state_of (run (o :: rest) s) = state_of (run rest (state_of (exec o s))).
Proof.
  cbn [run]. unfold mbind, M_bind, state_of.
  destruct (exec o s) as [[[] s1] t1]. cbn.
  by destruct (run rest s1) as [[[] s2] t2].
Qed.

Lemma run_app_state (ops1 ops2 : list op) (s : gameplan_state) :
  state_of (run (ops1 ++ ops2) s)
  = state_of (run ops2 (state_of (run ops1 s))).
Proof.
  revert s. induction ops1 as [|o rest IH]; intros s; [reflexivity|].
  rewrite <- app_comm_cons, !run_cons_state. apply IH.
Qed.

Lemma run_app_calls (ops1 ops2 : list op) (s : gameplan_state) :
  calls (run (ops1 ++ ops2) s)
  = calls (run ops1 s) ++ calls (run ops2 (state_of (run ops1 s))).
Proof.
  revert s. induction ops1 as [|o rest IH]; intros s; [reflexivity|].
  rewrite <- app_comm_cons, !run_cons_calls, run_cons_state, IH.
  by rewrite app_assoc.
Qed.

Lemma io_select_w_valid (code idx : Z) (s : gameplan_state) :
  (code, idx) ∈ select_codes →
  io_select_w code s = (tt, with_current_port idx s, []).
Proof.
  unfold select_codes. intros Hin. set_unfold in Hin.
  destruct_or!; simplify_eq; reflexivity.
Qed.

Lemma io_select_w_other (data : Z) (s : gameplan_state) :
  data ∉ [0x01; 0x02; 0x04; 0x08; 0x80; 0x40] →
  io_select_w data s = (tt, s, []).
Proof.
  intros Hnot. unfold io_select_w.
  destruct data as [|p|p]; try reflexivity.
  do 8 (try (destruct p as [p|p|]; try reflexivity));
    exfalso; apply Hnot; set_solver.
Qed.

Lemma io_select_w_state (data : Z) (s : gameplan_state) :
  state_of (io_select_w data s) = s
  ∨ ∃ p, state_of (io_select_w data s) = with_current_port p s.
Proof.
  unfold io_select_w.
  destruct data as [|p|p]; try (left; reflexivity).
  do 8 (try (destruct p as [p|p|]; try (left; reflexivity)));
    right; eexists; reflexivity.
Qed.

Lemma exec_no_port_write (o : op) (s : gameplan_state) :
  writes_port o = false → state_of (exec o s) = s.
Proof.
  destruct o as [data| |st|st|data|st|st| |]; cbn [writes_port exec];
    intros Hw; try reflexivity; try discriminate.
  - apply bool_decide_eq_false in Hw. by rewrite io_select_w_other.
  - unfold audio_reset_w, when. by destruct (st =? 0).
  - unfold r6532_irq, when. by destruct (st =? ASSERT_LINE).
Qed.

Lemma run_no_port_write (ops : list op) (s : gameplan_state) :
  Forall (λ o, writes_port o = false) ops → state_of (run ops s) = s.
Proof.
  induction 1 as [|o rest Ho _ IH]; [reflexivity|].
  by rewrite run_cons_state, exec_no_port_write.
Qed.

(** X1. The current port is decided by the last handler that writes it:
    after a select with one of the six codes, whatever ran before it and
    whatever handlers that do not write the port run after it, the current
    port is the index of that code. *)
Theorem select_last_valid_wins
    (pre post : list op) (code idx : Z) (s : gameplan_state) :
  (code, idx) ∈ select_codes →
  Forall (λ o, writes_port o = false) post →
  m_current_port (state_of (run (pre ++ op_io_select_w code :: post) s)) = idx.
Proof.
  intros Hin Hpost.
  rewrite run_app_state, run_cons_state, run_no_port_write by exact Hpost.
  cbn [exec]. by rewrite (io_select_w_valid code idx).
Qed.

Lemma exec_video_fields (o : op) (s : gameplan_state) :
  o ≠ op_machine_reset →
  video_fields (state_of (exec o s)) = video_fields s.
Proof.
  intros Ho. destruct (writes_port o) eqn:Hw.
  - destruct o; try discriminate; [|done].
    cbn [exec]. by destruct (io_select_w_state data s) as [->|[p ->]].
  - by rewrite exec_no_port_write.
Qed.

(** X2. No handler of the file other than [machine_reset] writes the
    video fields: they come out of any sequence of handlers without a
    machine reset as they went in. *)
Theorem run_keeps_video_fields (ops : list op) (s : gameplan_state) :
  op_machine_reset ∉ ops →
  video_fields (state_of (run ops s)) = video_fields s.
Proof.
  revert s. induction ops as [|o rest IH]; intros s Hno; [reflexivity|].
  apply not_elem_of_cons in Hno as [Ho Hrest].
  rewrite run_cons_state, IH by exact Hrest.
  apply exec_video_fields. congruence.
Qed.

(** X3. On a machine that has the six ports of [portnames], a read with
    the current port in range is defined and gives the low 8 bits of the
    selected port's value, a number from 0 to 255. *)
Theorem io_port_r_defined_byte (s : gameplan_state) :
  (∀ tag, tag ∈ portnames → is_Some (ioports !! tag)) →
  port_in_range s →
  ∃ tag w,
    array_at portnames (m_current_port s) = Some tag
    ∧ ioports !! tag = Some w
    ∧ value (io_port_r s) = Some (w `mod` 256)
    ∧ 0 ≤ w `mod` 256 < 256.
Proof.
  intros Hports Hs. unfold port_in_range in Hs.
  rewrite io_port_r_value. unfold input_group.
  assert (Hq : m_current_port s = 0 ∨ m_current_port s = 1
               ∨ m_current_port s = 2 ∨ m_current_port s = 3
               ∨ m_current_port s = 4 ∨ m_current_port s = 5) by lia.
  assert (Hmod : ∀ w, uint8 w = w `mod` 256).
  { intros w. unfold uint8. change 0xff with (Z.ones 8).
    by rewrite Z.land_ones by lia. }
  destruct_or!; rewrite Hq;
    match goal with
    | |- context [array_at portnames ?i] =>
        let t := eval vm_compute in (array_at portnames i) in
        change (array_at portnames i) with t
    end;
    match goal with
    | |- context [Some ?tag ≫= _] =>
        destruct (Hports tag) as [w Hw];
          [apply (bool_decide_unpack _); vm_compute; exact I|];
        exists tag, w; cbn; rewrite Hw; cbn; rewrite Hmod;
        repeat split; try done; apply Z.mod_pos_bound; lia
    end.
Qed.

(** ** What the handlers ask of the collaborators *)

Lemma exec_boosts (o : op) (s : gameplan_state) :
  filter is_boost (calls (exec o s))
  = if boosts o
    then [scheduler_boost_interleave attotime.zero (attotime.from_usec 10)]
    else [].
Proof.
  destruct o as [data| |st|st|data|st|st| |]; cbn [exec boosts];
    try reflexivity.
  - by rewrite io_select_w_calls.
  - unfold audio_reset_w, when. by destruct (st =? 0).
  - unfold r6532_irq, when. by destruct (st =? ASSERT_LINE).
Qed.

(** X4. Over any sequence of handlers, the interleave boosts asked of the
    scheduler are one for each reset-line write at level 0 and each RIOT
    interrupt at [ASSERT_LINE], and every one of them has zero initial
    delay and a duration of 10 microseconds. *)
Theorem run_boosts (ops : list op) (s : gameplan_state) :
  filter is_boost (calls (run ops s))
  = replicate (length (filter boosts ops))
      (scheduler_boost_interleave attotime.zero (attotime.from_usec 10)).
Proof.
  revert s. induction ops as [|o rest IH]; intros s; [reflexivity|].
  rewrite run_cons_calls, list.filter_app, IH, exec_boosts, list.filter_cons.
  by destruct (boosts o).
Qed.

Lemma exec_line_calls (o : op) (s : gameplan_state) :
  Forall line_call_ok (calls (exec o s)).
Proof.
  destruct o as [data| |st|st|data|st|st| |]; cbn [exec].
  - rewrite io_select_w_calls. apply Forall_nil.
  - apply Forall_nil.
  - apply Forall_cons; [exact I|apply Forall_nil].
  - unfold audio_reset_w, when, truthy.
    destruct (st =? 0); repeat (apply Forall_cons; [cbn; auto|]);
      apply Forall_nil.
  - apply Forall_cons; [exact I|apply Forall_nil].
  - apply Forall_cons; [exact I|apply Forall_nil].
  - unfold r6532_irq, when.
    destruct (st =? ASSERT_LINE); repeat (apply Forall_cons; [cbn; auto|]);
      apply Forall_nil.
  - repeat (apply Forall_cons; [exact I|]). apply Forall_nil.
  - apply Forall_nil.
Qed.

(** X5. Over any sequence of handlers, the driver drives no input line of
    the audio CPU other than line 0 and the reset line, and the reset line
    only ever gets [CLEAR_LINE] or [ASSERT_LINE]. *)
Theorem run_line_calls (ops : list op) (s : gameplan_state) :
  Forall line_call_ok (calls (run ops s)).
Proof.
  revert s. induction ops as [|o rest IH]; intros s; [constructor|].
  rewrite run_cons_calls. apply Forall_app. split; [apply exec_line_calls|apply IH].
Qed.

(** ** Integer levels that are not line levels *)

Lemma land_1_parity (x : Z) : Z.land x 1 = if Z.odd x then 1 else 0.
Proof.
  change 1 with (Z.ones 1) at 1. rewrite Z.land_ones by lia.
  change (2 ^ 1) with 2. rewrite Zmod_odd. reflexivity.
Qed.

(** X6. For every integer, not only for the levels 0 and 1, [coin_w]
    looks at bit 0 alone: the coin counter of channel 0 is given 1 when
    the level is even and 0 when it is odd. *)
Theorem coin_w_parity (state : Z) (s : gameplan_state) :
  coin_w state s
  = (tt, s, [bookkeeping_coin_counter_w 0 (if Z.even state then 1 else 0)]).
Proof.
  unfold coin_w, emit. rewrite land_1_parity.
  replace (Z.lnot state) with (- state - 1) by (unfold Z.lnot; lia).
  replace (- state - 1) with (Z.pred (- state)) by lia.
  rewrite Z.odd_pred, Z.even_opp. reflexivity.
Qed.

Lemma trigger_data_parity (state : Z) :
  uint8 (Z.shiftl state 7) = if Z.odd state then 0x80 else 0.
Proof.
  unfold uint8. change 0xff with (Z.ones 8).
  rewrite Z.land_ones, Z.shiftl_mul_pow2 by lia.
  change (2 ^ 8) with (2 * 2 ^ 7).
  rewrite Z.mul_mod_distr_r by lia.
  rewrite Zmod_odd. by destruct (Z.odd state).
Qed.

Lemma coin_w_parity_calls (state : Z) (s : gameplan_state) :
  calls (coin_w state s)
  = [bookkeeping_coin_counter_w 0 (if Z.even state then 1 else 0)].
Proof.
  unfold coin_w, emit, calls. cbn [snd]. rewrite land_1_parity.
  replace (Z.lnot state) with (Z.pred (- state)) by (unfold Z.lnot; lia).
  by rewrite Z.odd_pred, Z.even_opp.
Qed.

(** X7. For every integer, [audio_trigger_w] hands the RIOT the mask 0x80
    with data 0x80 when the level is odd and 0 when it is even: the data
    never has a bit outside the mask. *)
Theorem audio_trigger_w_parity (state : Z) (s : gameplan_state) :
  audio_trigger_w state s
  = (tt, s, [riot_porta_in_set (if Z.odd state then 0x80 else 0) 0x80]).
Proof. unfold audio_trigger_w. by rewrite trigger_data_parity. Qed.

(** ** The latch under sequences of writes *)

Lemma riot_after_app (log1 log2 : list call) (r : riot6532.t) :
  riot_after (log1 ++ log2) r = riot_after log2 (riot_after log1 r).
Proof. apply fold_left_app. Qed.

Lemma latch_both_writes (old c d : Z) :
  uint8 (Z.lor
           (Z.land (uint8 (Z.lor (Z.land old (Z.lnot 0x7f)) (Z.land c 0x7f)))
                   (Z.lnot 0x80))
           (Z.land d 0x80))
  = Z.lor (Z.land d 0x80) (Z.land c 0x7f).
Proof. unfold uint8. byte_bits. Qed.

Lemma byte_range (x : Z) : 0 ≤ uint8 x < 256.
Proof.
  unfold uint8. change 0xff with (Z.ones 8).
  rewrite Z.land_ones by lia. apply Z.mod_pos_bound. lia.
Qed.

(** X8. A command write and a trigger write together fix the whole
    port-A latch of the RIOT, whatever it held before: bit 7 is bit 0 of
    the trigger level and bits 0-6 are those of the command byte; the
    latch stays a byte. *)
Theorem audio_latch_both_writes
    (c v : Z) (s : gameplan_state) (r : riot6532.t) :
  riot6532.port_a_in
    (riot_after (calls ((audio_cmd_w c;; audio_trigger_w v) s)) r)
  = Z.lor (if Z.odd v then 0x80 else 0) (Z.land c 0x7f)
  ∧ 0 ≤ riot6532.port_a_in
          (riot_after (calls ((audio_cmd_w c;; audio_trigger_w v) s)) r)
      < 256.
Proof.
  unfold riot_after, calls, audio_cmd_w, audio_trigger_w, emit, mbind, M_bind.
  cbn [snd app fold_left riot_step riot6532.porta_in_set riot6532.port_a_in].
  split; [|apply byte_range].
  rewrite latch_both_writes, trigger_data_parity.
  by destruct (Z.odd v).
Qed.

Lemma cmd_write_keeps_0x80 (old c : Z) :
  Z.land (uint8 (Z.lor (Z.land old (Z.lnot 0x7f)) (Z.land c 0x7f))) 0x80
  = Z.land old 0x80.
Proof. unfold uint8. byte_bits. Qed.

Lemma trigger_write_keeps_0x7f (old d : Z) :
  Z.land (uint8 (Z.lor (Z.land old (Z.lnot 0x80)) (Z.land d 0x80))) 0x7f
  = Z.land old 0x7f.
Proof. unfold uint8. byte_bits. Qed.

(** X9. Command traffic never disturbs the trigger bit and trigger
    traffic never disturbs the command bits: after any sequence of command
    writes bit 7 of the latch is as before, and after any sequence of
    trigger writes bits 0-6 are as before. *)
Theorem latch_fields_independent
    (cs vs : list Z) (s : gameplan_state) (r : riot6532.t) :
  Z.land (riot6532.port_a_in
            (riot_after (calls (run (op_audio_cmd_w <$> cs) s)) r)) 0x80
  = Z.land (riot6532.port_a_in r) 0x80
  ∧ Z.land (riot6532.port_a_in
              (riot_after (calls (run (op_audio_trigger_w <$> vs) s)) r)) 0x7f
    = Z.land (riot6532.port_a_in r) 0x7f.
Proof.
  split.
  - revert r. induction cs as [|c cs IH]; intros r; [reflexivity|].
    rewrite fmap_cons, run_cons_calls, riot_after_app.
    change (state_of (exec (op_audio_cmd_w c) s)) with s.
    rewrite IH. apply cmd_write_keeps_0x80.
  - revert r. induction vs as [|v vs IH]; intros r; [reflexivity|].
    rewrite fmap_cons, run_cons_calls, riot_after_app.
    change (state_of (exec (op_audio_trigger_w v) s)) with s.
    rewrite IH. apply trigger_write_keeps_0x7f.
Qed.

Lemma exec_riot_frame (o : op) (s : gameplan_state) (r : riot6532.t) :
  acts_on_riot o = false → riot_after (calls (exec o s)) r = r.
Proof.
  destruct o as [data| |st|st|data|st|st| |]; cbn [exec acts_on_riot];
    intros Ha; try reflexivity; try discriminate.
  - by rewrite io_select_w_calls.
  - unfold audio_reset_w, when. by rewrite Ha.
  - unfold r6532_irq, when. by destruct (st =? ASSERT_LINE).
Qed.

(** X10. Only the command write, the trigger write and the reset-line
    write at level 0 act on the RIOT: any sequence of other handlers
    leaves the RIOT as it was. *)
Theorem run_riot_frame (ops : list op) (s : gameplan_state) (r : riot6532.t) :
  Forall (λ o, acts_on_riot o = false) ops →
  filter is_riot_call (calls (run ops s)) = []
  ∧ riot_after (calls (run ops s)) r = r.
Proof.
  intros Hops. revert s.
  induction Hops as [|o rest Ho _ IH]; intros s; [by split|].
  rewrite run_cons_calls, list.filter_app, riot_after_app.
  rewrite exec_riot_frame by exact Ho.
  destruct (IH (state_of (exec o s))) as [-> ->]. split; [|reflexivity].
  rewrite app_nil_r.
  destruct o as [data| |st|st|data|st|st| |]; cbn [exec acts_on_riot] in *;
    try reflexivity; try discriminate.
  - by rewrite io_select_w_calls.
  - unfold audio_reset_w, when. by rewrite Ho.
  - unfold r6532_irq, when. by destruct (st =? ASSERT_LINE).
Qed.

(** ** The coin counters under sequences of handlers *)

Lemma bookkeeping_after_app (log1 log2 : list call) (b : bookkeeping.t) :
  bookkeeping_after (log1 ++ log2) b
  = bookkeeping_after log2 (bookkeeping_after log1 b).
Proof. apply fold_left_app. Qed.

Lemma exec_bookkeeping (o : op) (s : gameplan_state) (b : bookkeeping.t) :
  bookkeeping_after (calls (exec o s)) b
  = match o with
    | op_coin_w state =>
        bookkeeping.coin_counter_w 0 (if Z.even state then 1 else 0) b
    | _ => b
    end.
Proof.
  destruct o as [data| |st|st|data|st|st| |]; cbn [exec]; try reflexivity.
  - by rewrite io_select_w_calls.
  - by rewrite coin_w_parity_calls.
  - unfold audio_reset_w, when. by destruct (st =? 0).
  - unfold r6532_irq, when. by destruct (st =? ASSERT_LINE).
Qed.

(** X11. The driver counts coins on channel 0 only: the counts of every
    other channel come out of any sequence of handlers as they went in. *)
Theorem run_other_coin_channels
    (ops : list op) (s : gameplan_state) (b : bookkeeping.t) (num : Z) :
  num ≠ 0 →
  bookkeeping.coin_count (bookkeeping_after (calls (run ops s)) b) num
  = bookkeeping.coin_count b num.
Proof.
  intros Hnum. revert s b.
  induction ops as [|o rest IH]; intros s b; [reflexivity|].
  rewrite run_cons_calls, bookkeeping_after_app, IH, exec_bookkeeping.
  destruct o; try reflexivity.
  unfold bookkeeping.coin_counter_w. cbn [bookkeeping.coin_count].
  destruct (truthy _ && _); [|reflexivity].
  by rewrite fn_lookup_insert_ne.
Qed.

Lemma coin_counter_w_step (state : Z) (b : bookkeeping.t) :
  bookkeeping.coin_count b 0
  ≤ bookkeeping.coin_count
      (bookkeeping.coin_counter_w 0 (if Z.even state then 1 else 0) b) 0
  ≤ bookkeeping.coin_count b 0 + (if Z.even state then 1 else 0).
Proof.
  unfold bookkeeping.coin_counter_w. cbn [bookkeeping.coin_count].
  destruct (Z.even state); cbn [truthy Z.eqb negb andb]; [|lia].
  destruct (bookkeeping.lastcoin b 0 =? 0); rewrite ?fn_lookup_insert; lia.
Qed.

(** X12. On channel 0 the count never goes down, and over any sequence
    of handlers it goes up by at most the number of coin-line writes at an
    even level. *)
Theorem run_coin_count_bounds
    (ops : list op) (s : gameplan_state) (b : bookkeeping.t) :
  bookkeeping.coin_count b 0
  ≤ bookkeeping.coin_count (bookkeeping_after (calls (run ops s)) b) 0
  ≤ bookkeeping.coin_count b 0 + Z.of_nat (length (filter coin_low ops)).
Proof.
  revert s b.
  induction ops as [|o rest IH]; intros s b; [cbn; lia|].
  rewrite run_cons_calls, bookkeeping_after_app, exec_bookkeeping.
  rewrite list.filter_cons.
  destruct o as [data| |st|st|data|st|st| |];
    try (match goal with
         | |- context [run rest ?s'] => specialize (IH s' b)
         end; cbn [coin_low]; case_decide; [done|exact IH]).
  pose proof (coin_counter_w_step st b) as Hstep.
  specialize (IH (state_of (exec (op_coin_w st) s))
                (bookkeeping.coin_counter_w 0 (if Z.even st then 1 else 0) b)).
  revert Hstep IH.
  generalize (bookkeeping.coin_counter_w 0 (if Z.even st then 1 else 0) b).
  intros b' Hstep IH. cbn [coin_low].
  destruct (Z.even st); case_decide; try done; cbn [length]; lia.
Qed.

End Driver.


(** ** The address maps *)

Lemma all_below_spec (bits : nat) (P : Z → bool) (base : Z) :
  all_below bits P base = true →
  ∀ a, base * 2 ^ Z.of_nat bits ≤ a < (base + 1) * 2 ^ Z.of_nat bits →
       P a = true.
Proof.
  revert base. induction bits as [|n IH]; intros base Hall a Ha.
  - cbn in Ha. assert (a = base) as -> by lia. exact Hall.
  - cbn [all_below] in Hall. apply andb_true_iff in Hall as [Hlo Hhi].
    rewrite Nat2Z.inj_succ, Z.pow_succ_r in Ha by lia.
    pose proof (Z.pow_pos_nonneg 2 (Z.of_nat n) ltac:(lia) ltac:(lia)).
    destruct (Z_lt_ge_dec a ((2 * base + 1) * 2 ^ Z.of_nat n)).
    + apply (IH _ Hlo). nia.
    + apply (IH _ Hhi). nia.
Qed.

Lemma all_addresses_spec (P : Z → bool) :
  all_addresses P = true → ∀ a, 0 ≤ a < 0x10000 → P a = true.
Proof.
  intros Hall a Ha. apply (all_below_spec 16 P 0 Hall).
  change (2 ^ Z.of_nat 16) with 0x10000. lia.
Qed.

(** Decide a statement about every address by running it on the 65536
    addresses. *)
Ltac by_all_addresses a Ha :=
  match goal with
  | |- ?G =>
      let P := eval pattern a in G in
      match P with
      | ?F a =>
          let Hall := fresh "Hall" in
          assert (Hall : all_addresses (λ x, bool_decide (F x)) = true)
            by (vm_cast_no_check (eq_refl true));
          exact (bool_decide_eq_true_1 _ (all_addresses_spec _ Hall a Ha))
      end
  end.

Lemma gameplan_main_map_checked :
  all_addresses
    (λ a, bool_decide
            (target_at a <$> address_map.decode gameplan_main_map a
             = if a <? 0x2000 then [(address_map.ram, a `mod` 0x400)]
               else if a <? 0x2800
                 then [(address_map.m "m_via_0" "via6522_device::map",
                        a `mod` 0x10)]
               else if a <? 0x3000
                 then [(address_map.m "m_via_1" "via6522_device::map",
                        a `mod` 0x10)]
               else if a <? 0x3800
                 then [(address_map.m "m_via_2" "via6522_device::map",
                        a `mod` 0x10)]
               else if a <? 0x8000 then []
               else [(address_map.rom, a - 0x8000)]))
  = true.
Proof. vm_cast_no_check (eq_refl true). Qed.

(** X13. The main CPU's map decodes the 64K space in windows: RAM
    repeated every 1K below 0x2000, the three VIAs repeated every 16
    bytes in the 2K windows at 0x2000, 0x2800 and 0x3000, nothing from
    0x3800 to 0x7fff, and ROM from 0x8000 up; no address has two
    handlers. *)
Theorem gameplan_main_map_windows (a : Z) :
  0 ≤ a < 0x10000 →
  target_at a <$> address_map.decode gameplan_main_map a
  = if a <? 0x2000 then [(address_map.ram, a `mod` 0x400)]
    else if a <? 0x2800
      then [(address_map.m "m_via_0" "via6522_device::map", a `mod` 0x10)]
    else if a <? 0x3000
      then [(address_map.m "m_via_1" "via6522_device::map", a `mod` 0x10)]
    else if a <? 0x3800
      then [(address_map.m "m_via_2" "via6522_device::map", a `mod` 0x10)]
    else if a <? 0x8000 then []
    else [(address_map.rom, a - 0x8000)].
Proof.
  intros Ha.
  exact (bool_decide_eq_true_1 _
           (all_addresses_spec _ gameplan_main_map_checked a Ha)).
Qed.

(** X14. The audio CPU's map decodes the 64K space as follows: below
    0x2000, RAM repeated every 128 bytes where address bit 11 is clear and
    the RIOT repeated every 32 bytes where it is set; from 0xa000 to
    0xbfff the three AY-3-8910 handlers on addresses 0, 1 and 2 modulo 4
    and nothing on 3; ROM repeated every 2K from 0xe000 up; nothing
    elsewhere. *)
Theorem gameplan_audio_map_windows (a : Z) :
  0 ≤ a < 0x10000 →
  target_at a <$> address_map.decode gameplan_audio_map a
  = if a <? 0x2000
    then (if Z.testbit a 11
          then [(address_map.rw "m_riot" "riot6532_device::read"
                   "riot6532_device::write", a `mod` 0x20)]
          else [(address_map.ram, a `mod` 0x80)])
    else if a <? 0xa000 then []
    else if a <? 0xc000
      then (if a `mod` 4 =? 0
            then [(address_map.w "aysnd" "ay8910_device::address_w", 0)]
            else if a `mod` 4 =? 1
            then [(address_map.r "aysnd" "ay8910_device::data_r", 0)]
            else if a `mod` 4 =? 2
            then [(address_map.w "aysnd" "ay8910_device::data_w", 0)]
            else [])
    else if a <? 0xe000 then []
    else [(address_map.rom, a `mod` 0x800)].
Proof. intros Ha. by_all_addresses a Ha. Qed.

(** X15. The Leprechaun audio map is the Game Plan one with a larger
    ROM: below 0xe000 the two maps decode every address alike, and from
    0xe000 up both decode to ROM, repeated every 2K in the one and every
    4K in the other. *)
Theorem leprechn_audio_map_larger_rom (a : Z) :
  0 ≤ a < 0x10000 →
  (a < 0xe000 →
   address_map.decode leprechn_audio_map a
   = address_map.decode gameplan_audio_map a)
  ∧ (0xe000 ≤ a →
     target_at a <$> address_map.decode gameplan_audio_map a
     = [(address_map.rom, a `mod` 0x800)]
     ∧ target_at a <$> address_map.decode leprechn_audio_map a
       = [(address_map.rom, a `mod` 0x1000)]).
Proof. intros Ha. by_all_addresses a Ha. Qed.

(** ** The ROM sets *)

(** Decide a closed statement by running its decision procedure. *)
Ltac by_decision :=
  apply (bool_decide_unpack _); vm_cast_no_check I.

(** X16. In every game's ROM set the sound ROM is one chunk, and it
    fills exactly the ROM entry of the audio map of the game's machine
    configuration: 2K at 0xe000 for [gameplan], 4K at 0xe000 for
    [leprechn]. *)
Theorem audio_rom_fills_map_window :
  Forall
    (λ g,
       region_chunks "audiocpu" (game_driver.roms g)
       = (λ e, (address_map.addrstart e,
                address_map.addrend e - address_map.addrstart e + 1))
         <$> filter (λ e, address_map.target e = address_map.rom)
               (audio_program_map (game_driver.machine g)))
    game_drivers.
Proof. by_decision. Qed.

(** X17. In every game's ROM set no chunk overruns its region: the
    program region and the sound region are declared with a length, and
    every chunk loaded into them is non-empty and lies between 0 and that
    length. *)
Theorem rom_chunks_inside_regions :
  Forall
    (λ g,
       Forall
         (λ tag,
            ∃ len, region_length tag (game_driver.roms g) = Some len
                   ∧ Forall (λ c, 0 ≤ c.1 ∧ 0 < c.2 ∧ c.1 + c.2 ≤ len)
                            (region_chunks tag (game_driver.roms g)))
         ["maincpu"; "audiocpu"]%string)
    game_drivers.
Proof.
  unfold game_drivers.
  repeat first [apply List.Forall_nil | apply List.Forall_cons];
    (eexists; split; [reflexivity|by_decision]).
Qed.

Lemma main_map_rom_window (a : Z) :
  0x8000 ≤ a < 0x10000 →
  address_map.target <$> address_map.decode gameplan_main_map a
  = [address_map.rom].
Proof.
  intros Ha.
  pose proof (bool_decide_eq_true_1 _
                (all_addresses_spec _ gameplan_main_map_checked a
                   ltac:(lia))) as Hdec.
  rewrite !(proj2 (Z.ltb_ge _ _)) in Hdec by lia.
  change (address_map.target <$> address_map.decode gameplan_main_map a)
    with (fst ∘ target_at a <$> address_map.decode gameplan_main_map a).
  rewrite list_fmap_compose, Hdec. reflexivity.
Qed.

Lemma apart_not_held (a : Z) (c : Z * Z) (chunks : list (Z * Z)) :
  chunk_holds a c = true →
  forallb (chunks_apart c) chunks = true →
  filter (chunk_holds a) chunks = [].
Proof.
  unfold chunk_holds. intros Hc Hall.
  apply andb_true_iff in Hc as [Hlo Hhi].
  apply Z.leb_le in Hlo. apply Z.ltb_lt in Hhi.
  induction chunks as [|c' rest IH]; [reflexivity|].
  cbn [forallb] in Hall. apply andb_true_iff in Hall as [Hc' Hrest].
  rewrite list.filter_cons, (IH Hrest).
  case_decide as Hheld; [|reflexivity].
  unfold chunks_apart in Hc'. apply Is_true_true in Hheld.
  apply andb_true_iff in Hheld as [Hlo' Hhi'].
  apply Z.leb_le in Hlo'. apply Z.ltb_lt in Hhi'.
  apply orb_true_iff in Hc' as [H|H]; apply Z.leb_le in H; lia.
Qed.

Lemma pairwise_apart_held_once (a : Z) (chunks : list (Z * Z)) :
  pairwise_apart chunks = true →
  (length (filter (chunk_holds a) chunks) ≤ 1)%nat.
Proof.
  induction chunks as [|c rest IH]; [cbn; lia|].
  cbn [pairwise_apart]. intros Hall.
  apply andb_true_iff in Hall as [Hc Hrest].
  rewrite list.filter_cons. case_decide as Hheld; [|by apply IH].
  apply Is_true_true in Hheld.
  rewrite (apart_not_held a c rest Hheld Hc). cbn. lia.
Qed.

Lemma main_roms_checked :
  Forall
    (λ g,
       pairwise_apart (region_chunks "maincpu" (game_driver.roms g)) = true
       ∧ Forall (λ c, 0x8000 ≤ c.1 ∧ c.1 + c.2 ≤ 0x10000)
                (region_chunks "maincpu" (game_driver.roms g))
       ∧ Exists (λ c, c.1 ≤ 0xfffa ∧ 0x10000 ≤ c.1 + c.2)
                (region_chunks "maincpu" (game_driver.roms g)))
    game_drivers.
Proof. by_decision. Qed.

(** X18. In every game's ROM set the program ROM agrees with the main
    CPU's map: no address is loaded twice, every loaded address decodes to
    the ROM entry of the map, and the six bytes of the 6502 vectors at
    0xfffa-0xffff are loaded. *)
Theorem main_roms_match_map (i : nat) (g : game_driver.t) (a : Z) :
  game_drivers !! i = Some g →
  0 ≤ a < 0x10000 →
  (length (loaded_at "maincpu" (game_driver.roms g) a) ≤ 1)%nat
  ∧ (loaded_at "maincpu" (game_driver.roms g) a ≠ [] →
     address_map.target
       <$> address_map.decode (main_program_map (game_driver.machine g)) a
     = [address_map.rom])
  ∧ (0xfffa ≤ a → loaded_at "maincpu" (game_driver.roms g) a ≠ []).
Proof.
  intros Hg Ha.
  destruct (proj1 (Forall_lookup _ _) main_roms_checked i g Hg)
    as (Hapart & Hin & Hvec).
  unfold loaded_at. split; [by apply pairwise_apart_held_once|]. split.
  - intros Hheld.
    destruct (filter _ _) as [|c held] eqn:Hf; [done|].
    assert (Hc : c ∈ filter (chunk_holds a)
                   (region_chunks "maincpu" (game_driver.roms g)))
      by (rewrite Hf; apply list_elem_of_here).
    apply list_elem_of_filter in Hc as [Hc Hmem].
    apply Is_true_true, andb_true_iff in Hc as [Hlo Hhi].
    apply Z.leb_le in Hlo. apply Z.ltb_lt in Hhi.
    pose proof (proj1 (list.Forall_forall _ _) Hin c Hmem) as [??].
    apply main_map_rom_window. lia.
  - intros Ha'. apply list.Exists_exists in Hvec as (c & Hmem & Hlo & Hhi).
    intros Hnil.
    assert (Hc : c ∈ filter (chunk_holds a)
                   (region_chunks "maincpu" (game_driver.roms g))).
    { apply list_elem_of_filter. split; [|exact Hmem].
      apply Is_true_true, andb_true_iff.
      split; [apply Z.leb_le|apply Z.ltb_lt]; lia. }
    rewrite Hnil in Hc. by apply elem_of_nil in Hc.
Qed.

(** ** The input ports *)

Lemma io_port_r_is_Some (ioports : gmap string Z) (s : gameplan_state) :
  (∀ tag, tag ∈ portnames → is_Some (ioports !! tag)) →
  port_in_range s →
  is_Some (value (io_port_r ioports s)).
Proof.
  intros Hports Hs. unfold port_in_range in Hs.
  rewrite io_port_r_value. unfold input_group.
  assert (Hq : m_current_port s = 0 ∨ m_current_port s = 1
               ∨ m_current_port s = 2 ∨ m_current_port s = 3
               ∨ m_current_port s = 4 ∨ m_current_port s = 5) by lia.
  destruct_or!; rewrite Hq;
    match goal with
    | |- context [array_at portnames ?i] =>
        let t := eval vm_compute in (array_at portnames i) in
        change (array_at portnames i) with t
    end;
    match goal with
    | |- context [Some ?tag ≫= _] =>
        destruct (Hports tag) as [w Hw];
          [apply (bool_decide_unpack _); vm_compute; exact I|];
        cbn; rewrite Hw; cbn; eauto
    end.
Qed.

Lemma game_ports_checked :
  Forall (λ g, portnames ++ aysnd_ports ⊆ port_tags (game_driver.input g))
         game_drivers.
Proof. by_decision. Qed.

(** X19. Every game's input ports have the six ports [io_port_r] looks
    up by name and the two the AY-3-8910 is wired to; so on a machine
    that has the ports of the game, a read with the current port in range
    never looks up a missing port. *)
Theorem game_ports_cover_portnames
    (i : nat) (g : game_driver.t) (ioports : gmap string Z)
    (s : gameplan_state) :
  game_drivers !! i = Some g →
  (∀ tag, tag ∈ port_tags (game_driver.input g) → is_Some (ioports !! tag)) →
  port_in_range s →
  portnames ++ aysnd_ports ⊆ port_tags (game_driver.input g)
  ∧ is_Some (value (io_port_r ioports s)).
Proof.
  intros Hg Hports Hs.
  pose proof (proj1 (Forall_lookup _ _) game_ports_checked i g Hg) as Hsub.
  split; [exact Hsub|].
  apply io_port_r_is_Some; [|exact Hs].
  intros tag Htag. apply Hports, Hsub, elem_of_app. by left.
Qed.

(** X20. In every input-port block, with the included blocks in place,
    every bit 0-7 of every port the block starts is defined by exactly one
    [PORT_BIT], [PORT_DIPNAME] or [PORT_DIPUNUSED_DIPLOC]. *)
Theorem port_bits_defined_once :
  Forall
    (λ ds, Forall (λ p, each_bit_once (field_masks p.2))
                  (started_ports (expand ds)))
    input_port_blocks.
Proof. by_decision. Qed.

(** X21. For every switch named with [PORT_DIPNAME], the settings that
    follow it are pairwise distinct, they are exactly the positions of the
    switch (the values with no bit outside its mask), and the default is
    one of them. *)
Theorem dip_settings_are_the_positions :
  Forall
    (λ ds,
       Forall
         (λ '(mask, default, settings),
            NoDup settings
            ∧ settings ⊆ dip_positions mask
            ∧ dip_positions mask ⊆ settings
            ∧ default ∈ settings)
         (dip_switches ds))
    input_port_blocks.
Proof. by_decision. Qed.

(** ** Instances on the concrete machine *)

(** C1, as worded, fails: at level 1 the handler releases the reset input
    and does nothing else, and at level 0 it asserts the reset input and
    then resets the RIOT and asks for the boost. *)
Lemma audio_reset_w_release_counterexample :
  calls (audio_reset_w sample.CLEAR_LINE sample.ASSERT_LINE
           sample.INPUT_LINE_RESET 1 sample.fields)
  = [audiocpu_set_input_line sample.INPUT_LINE_RESET sample.CLEAR_LINE]
  ∧ calls (audio_reset_w sample.CLEAR_LINE sample.ASSERT_LINE
             sample.INPUT_LINE_RESET 0 sample.fields)
    = [audiocpu_set_input_line sample.INPUT_LINE_RESET sample.ASSERT_LINE;
       riot_reset;
       scheduler_boost_interleave attotime.zero (attotime.from_usec 10)]
  ∧ ¬ reset_sequence_on_release sample.CLEAR_LINE sample.ASSERT_LINE
        sample.INPUT_LINE_RESET.
Proof.
  split; [reflexivity|]. split; [reflexivity|].
  intros Hclaim.
  destruct (Hclaim 1 sample.fields) as [Hrelease _].
  destruct Hrelease as (d & _ & Hcalls).
  - apply list_elem_of_here.
  - discriminate Hcalls.
Qed.

(** Select code 0x04 with input group 2 at 0xA5: the read gives 0xA5. *)
Lemma io_select_w_then_io_port_r_witness :
  (0x04, 2) ∈ select_codes
  ∧ input_group sample.ioports 2 = Some 0xa5
  ∧ 0 ≤ 0xa5 < 256
  ∧ m_current_port (state_of (io_select_w 0x04 sample.fields)) = 2
  ∧ value (io_port_r sample.ioports (state_of (io_select_w 0x04 sample.fields)))
    = Some 0xa5.
Proof.
  assert (Hin : (0x04, 2) ∈ select_codes).
  { apply (bool_decide_unpack _). vm_compute. exact I. }
  assert (Hgrp : input_group sample.ioports 2 = Some 0xa5) by reflexivity.
  assert (Hv : 0 ≤ 0xa5 < 256) by lia.
  split; [exact Hin|]. split; [exact Hgrp|]. split; [exact Hv|].
  exact (io_select_w_then_io_port_r sample.ioports 0x04 2 0xa5 sample.fields
           Hin Hgrp Hv).
Defined.

(** After selecting group 2, the invalid code 0xFF changes nothing: the
    read still gives 0xA5. *)
Lemma io_select_w_invalid_noop_witness :
  (0xff ∉ [0x01; 0x02; 0x04; 0x08; 0x80; 0x40])
  ∧ value (io_port_r sample.ioports
             (state_of (io_select_w 0xff
                          (state_of (io_select_w 0x04 sample.fields)))))
    = Some 0xa5.
Proof.
  assert (Hnot : 0xff ∉ [0x01; 0x02; 0x04; 0x08; 0x80; 0x40]).
  { apply (bool_decide_unpack _). vm_compute. exact I. }
  split; [exact Hnot|].
  exact (proj2 (io_select_w_invalid_noop sample.ioports 0xff
                  (state_of (io_select_w 0x04 sample.fields)) Hnot)).
Defined.

(** A line that starts high and goes low three times: three coins. *)
Lemma coin_w_counts_falling_edges_witness :
  is_level 1
  ∧ Forall is_level [0; 1; 0; 0; 1; 0]
  ∧ bookkeeping.lastcoin sample.counters 0 = Z.land (Z.lnot 1) 1
  ∧ bookkeeping.coin_count
      (bookkeeping_after
         (calls (run sample.CLEAR_LINE sample.ASSERT_LINE
                   sample.INPUT_LINE_RESET sample.ioports
                   (op_coin_w <$> [0; 1; 0; 0; 1; 0]) sample.fields))
         sample.counters) 0
    = 3.
Proof.
  assert (H1 : is_level 1) by (right; reflexivity).
  assert (H0 : is_level 0) by (left; reflexivity).
  assert (Hl : Forall is_level [0; 1; 0; 0; 1; 0]) by (repeat constructor; assumption).
  assert (Hb : bookkeeping.lastcoin sample.counters 0 = Z.land (Z.lnot 1) 1)
    by reflexivity.
  split; [exact H1|]. split; [exact Hl|]. split; [exact Hb|].
  exact (proj2 (proj2 (coin_w_counts_falling_edges
                         sample.CLEAR_LINE sample.ASSERT_LINE
                         sample.INPUT_LINE_RESET sample.ioports
                         1 [0; 1; 0; 0; 1; 0] sample.fields sample.counters
                         H1 Hl Hb))).
Defined.

(** Level 1 on the reset line: the reset input is cleared, nothing else. *)
Lemma audio_reset_w_nonzero_witness :
  1 ≠ 0
  ∧ audio_reset_w sample.CLEAR_LINE sample.ASSERT_LINE
      sample.INPUT_LINE_RESET 1 sample.fields
    = (tt, sample.fields,
       [audiocpu_set_input_line sample.INPUT_LINE_RESET sample.CLEAR_LINE]).
Proof.
  assert (Hne : 1 ≠ 0) by lia.
  split; [exact Hne|].
  exact (proj1 (audio_reset_w_nonzero sample.CLEAR_LINE sample.ASSERT_LINE
                  sample.INPUT_LINE_RESET sample.riot_power_on
                  1 sample.fields sample.riot_trigger_high Hne)).
Defined.

(** The RIOT raises its interrupt: forwarded, then the boost. *)
Lemma r6532_irq_forwards_and_boosts_witness :
  sample.ASSERT_LINE ≠ sample.CLEAR_LINE
  ∧ r6532_irq sample.ASSERT_LINE sample.ASSERT_LINE sample.fields
    = (tt, sample.fields,
       [audiocpu_set_input_line 0 sample.ASSERT_LINE;
        scheduler_boost_interleave attotime.zero (attotime.from_usec 10)]).
Proof.
  assert (Hne : sample.ASSERT_LINE ≠ sample.CLEAR_LINE) by (vm_compute; lia).
  split; [exact Hne|].
  exact (proj1 (r6532_irq_forwards_and_boosts sample.CLEAR_LINE
                  sample.ASSERT_LINE sample.ASSERT_LINE sample.fields Hne)).
Defined.

(** Command 0x3C written while the trigger bit is 1: the latch reads 0xBC. *)
Lemma audio_latch_masked_writes_witness :
  is_level 1
  ∧ riot6532.port_a_in
      (riot_after sample.riot_power_on
         (calls (audio_cmd_w 0x3c sample.fields)) sample.riot_trigger_high)
    = 0xbc.
Proof.
  assert (H1 : is_level 1) by (right; reflexivity).
  split; [exact H1|].
  exact (proj1 (audio_latch_masked_writes sample.riot_power_on 0x3c 1
                  sample.fields sample.riot_trigger_high H1)).
Defined.

(** ** Instances of the further properties *)

(** A select of group 4 after other traffic, then an invalid select, a
    coin and a read: the current port is 4. *)
Lemma select_last_valid_wins_witness :
  (0x80, 4) ∈ select_codes
  ∧ Forall (λ o, writes_port o = false)
           [op_io_select_w 0xff; op_coin_w 0; op_io_port_r]
  ∧ m_current_port
      (state_of
         (run sample.CLEAR_LINE sample.ASSERT_LINE sample.INPUT_LINE_RESET
            sample.ioports
            ([op_machine_reset; op_io_select_w 0x01]
             ++ op_io_select_w 0x80
                :: [op_io_select_w 0xff; op_coin_w 0; op_io_port_r])
            sample.fields))
    = 4.
Proof.
  assert (Hin : (0x80, 4) ∈ select_codes).
  { apply (bool_decide_unpack _). vm_compute. exact I. }
  assert (Hpost : Forall (λ o, writes_port o = false)
                    [op_io_select_w 0xff; op_coin_w 0; op_io_port_r]).
  { repeat (apply List.Forall_cons; [reflexivity|]). apply List.Forall_nil. }
  split; [exact Hin|]. split; [exact Hpost|].
  exact (select_last_valid_wins sample.CLEAR_LINE sample.ASSERT_LINE
           sample.INPUT_LINE_RESET sample.ioports
           [op_machine_reset; op_io_select_w 0x01]
           [op_io_select_w 0xff; op_coin_w 0; op_io_port_r]
           0x80 4 sample.fields Hin Hpost).
Defined.

(** A select, a command and an interrupt leave the video fields alone. *)
Lemma run_keeps_video_fields_witness :
  (op_machine_reset ∉ [op_io_select_w 0x02; op_audio_cmd_w 0x3c; op_r6532_irq 1])
  ∧ video_fields
      (state_of
         (run sample.CLEAR_LINE sample.ASSERT_LINE sample.INPUT_LINE_RESET
            sample.ioports
            [op_io_select_w 0x02; op_audio_cmd_w 0x3c; op_r6532_irq 1]
            sample.fields))
    = (17, 3, 1, 0x80, 0).
Proof.
  assert (Hno : op_machine_reset
                ∉ [op_io_select_w 0x02; op_audio_cmd_w 0x3c; op_r6532_irq 1]).
  { intros Hin.
    repeat (apply elem_of_cons in Hin as [Hin|Hin]; [discriminate Hin|]).
    by apply elem_of_nil in Hin. }
  split; [exact Hno|].
  exact (run_keeps_video_fields sample.CLEAR_LINE sample.ASSERT_LINE
           sample.INPUT_LINE_RESET sample.ioports
           [op_io_select_w 0x02; op_audio_cmd_w 0x3c; op_r6532_irq 1]
           sample.fields Hno).
Defined.

Lemma sample_ioports_complete :
  ∀ tag, tag ∈ portnames → is_Some (sample.ioports !! tag).
Proof.
  intros tag Htag. unfold portnames in Htag.
  repeat (apply elem_of_cons in Htag as [->|Htag];
          [eexists; reflexivity|]).
  by apply elem_of_nil in Htag.
Defined.

(** With the current port at 5 the read is defined and is a byte. *)
Lemma io_port_r_defined_byte_witness :
  (∀ tag, tag ∈ portnames → is_Some (sample.ioports !! tag))
  ∧ port_in_range sample.fields
  ∧ ∃ tag w,
      array_at portnames (m_current_port sample.fields) = Some tag
      ∧ sample.ioports !! tag = Some w
      ∧ value (io_port_r sample.ioports sample.fields) = Some (w `mod` 256)
      ∧ 0 ≤ w `mod` 256 < 256.
Proof.
  assert (Hs : port_in_range sample.fields) by (unfold port_in_range; cbn; lia).
  split; [exact sample_ioports_complete|]. split; [exact Hs|].
  exact (io_port_r_defined_byte sample.ioports sample.fields
           sample_ioports_complete Hs).
Defined.

(** A select, a coin, an interrupt, a release of the reset line and the
    machine start leave the RIOT alone. *)
Lemma run_riot_frame_witness :
  Forall (λ o, acts_on_riot o = false)
         [op_io_select_w 0x04; op_coin_w 0; op_r6532_irq 1;
          op_audio_reset_w 1; op_machine_start]
  ∧ riot_after sample.riot_power_on
      (calls
         (run sample.CLEAR_LINE sample.ASSERT_LINE sample.INPUT_LINE_RESET
            sample.ioports
            [op_io_select_w 0x04; op_coin_w 0; op_r6532_irq 1;
             op_audio_reset_w 1; op_machine_start]
            sample.fields))
      sample.riot_trigger_high
    = sample.riot_trigger_high.
Proof.
  assert (Hops : Forall (λ o, acts_on_riot o = false)
                   [op_io_select_w 0x04; op_coin_w 0; op_r6532_irq 1;
                    op_audio_reset_w 1; op_machine_start]).
  { repeat (apply List.Forall_cons; [reflexivity|]). apply List.Forall_nil. }
  split; [exact Hops|].
  exact (proj2 (run_riot_frame sample.CLEAR_LINE sample.ASSERT_LINE
                  sample.INPUT_LINE_RESET sample.ioports sample.riot_power_on
                  [op_io_select_w 0x04; op_coin_w 0; op_r6532_irq 1;
                   op_audio_reset_w 1; op_machine_start]
                  sample.fields sample.riot_trigger_high Hops)).
Defined.

(** A coin pulse does not move the count of channel 1. *)
Lemma run_other_coin_channels_witness :
  1 ≠ 0
  ∧ bookkeeping.coin_count
      (bookkeeping_after
         (calls
            (run sample.CLEAR_LINE sample.ASSERT_LINE sample.INPUT_LINE_RESET
               sample.ioports [op_coin_w 1; op_coin_w 0] sample.fields))
         sample.counters) 1
    = 0.
Proof.
  assert (Hne : 1 ≠ 0) by lia.
  split; [exact Hne|].
  exact (run_other_coin_channels sample.CLEAR_LINE sample.ASSERT_LINE
           sample.INPUT_LINE_RESET sample.ioports
           [op_coin_w 1; op_coin_w 0] sample.fields sample.counters 1 Hne).
Defined.

(** 0x1c05 is RAM at offset 5 for the main CPU. *)
Lemma gameplan_main_map_windows_witness :
  0 ≤ 0x1c05 < 0x10000
  ∧ target_at 0x1c05 <$> address_map.decode gameplan_main_map 0x1c05
    = [(address_map.ram, 5)].
Proof.
  assert (Ha : 0 ≤ 0x1c05 < 0x10000) by lia.
  split; [exact Ha|].
  exact (gameplan_main_map_windows 0x1c05 Ha).
Defined.

(** The reset vector 0xfffc of the audio CPU is ROM at offset 0x7fc. *)
Lemma gameplan_audio_map_windows_witness :
  0 ≤ 0xfffc < 0x10000
  ∧ target_at 0xfffc <$> address_map.decode gameplan_audio_map 0xfffc
    = [(address_map.rom, 0x7fc)].
Proof.
  assert (Ha : 0 ≤ 0xfffc < 0x10000) by lia.
  split; [exact Ha|].
  exact (gameplan_audio_map_windows 0xfffc Ha).
Defined.

(** The same vector in the Leprechaun map is ROM at offset 0xffc. *)
Lemma leprechn_audio_map_larger_rom_witness :
  0 ≤ 0xfffc < 0x10000
  ∧ 0xe000 ≤ 0xfffc
  ∧ target_at 0xfffc <$> address_map.decode leprechn_audio_map 0xfffc
    = [(address_map.rom, 0xffc)].
Proof.
  assert (Ha : 0 ≤ 0xfffc < 0x10000) by lia.
  assert (Hhi : 0xe000 ≤ 0xfffc) by lia.
  split; [exact Ha|]. split; [exact Hhi|].
  exact (proj2 (proj2 (leprechn_audio_map_larger_rom 0xfffc Ha) Hhi)).
Defined.

(** Kaos, the fifth entry, whose ROMs are loaded in two halves: its reset
    vector is loaded, once, and decodes to ROM. *)
Lemma main_roms_match_map_witness :
  ∃ g, game_drivers !! 4%nat = Some g
       ∧ game_driver.name g = "kaos"%string
       ∧ 0 ≤ 0xfffc < 0x10000
       ∧ loaded_at "maincpu" (game_driver.roms g) 0xfffc = [(0xf800, 0x0800)]
       ∧ address_map.target
           <$> address_map.decode (main_program_map (game_driver.machine g))
                 0xfffc
         = [address_map.rom].
Proof.
  eexists. split; [reflexivity|]. split; [reflexivity|].
  assert (Ha : 0 ≤ 0xfffc < 0x10000) by lia.
  split; [exact Ha|]. split; [reflexivity|].
  refine (proj1 (proj2 (main_roms_match_map 4 _ 0xfffc eq_refl Ha)) _).
  discriminate.
Defined.

(** Pot of Gold, the seventh entry, whose ports come from an included
    block: on a machine with its eight ports the read is defined. *)
Lemma game_ports_cover_portnames_witness :
  ∃ g, game_drivers !! 6%nat = Some g
       ∧ game_driver.name g = "potogold"%string
       ∧ (∀ tag, tag ∈ port_tags (game_driver.input g) →
                 is_Some ((<["DSW2" := 0xff]> (<["DSW3" := 0xff]> sample.ioports)
                           : gmap string Z) !! tag))
       ∧ port_in_range sample.fields
       ∧ is_Some (value (io_port_r
                           (<["DSW2" := 0xff]> (<["DSW3" := 0xff]> sample.ioports))
                           sample.fields)).
Proof.
  eexists. split; [reflexivity|]. split; [reflexivity|].
  assert (Hports : ∀ tag,
             tag ∈ port_tags input_ports_potogold →
             is_Some ((<["DSW2" := 0xff]> (<["DSW3" := 0xff]> sample.ioports)
                       : gmap string Z) !! tag)).
  { intros tag Htag.
    change (port_tags input_ports_potogold)
      with ["IN0"; "IN1"; "IN2"; "IN3"; "DSW0"; "DSW1"; "DSW2"; "DSW3"]%string
      in Htag.
    repeat (apply elem_of_cons in Htag as [->|Htag];
            [eexists; reflexivity|]).
    by apply elem_of_nil in Htag. }
  assert (Hs : port_in_range sample.fields) by (unfold port_in_range; cbn; lia).
  split; [exact Hports|]. split; [exact Hs|].
  exact (proj2 (game_ports_cover_portnames 6 _
                  (<["DSW2" := 0xff]> (<["DSW3" := 0xff]> sample.ioports))
                  sample.fields eq_refl Hports Hs)).
Defined.
